(** * Authentication and authorization core of the LMS backend

    A shallow embedding of the Express/Mongoose code: the JWT helpers
    ([utils/jwt]), the middleware ([protect], [authorize], [optionalAuth]),
    the [User] schema with its pre-save hook and instance methods, and the
    five auth handlers.

    Conventions.
    - A JavaScript string is a [string]; the source only handles ASCII
      specially (trimming, lower-casing, [\w]), and [length] is the
      number of characters for ASCII text.
    - [undefined] / a missing property is [None].
    - A request body is kept by its string-valued properties ([Body]);
      [loginJson] takes the [email] and [password] of a login as any
      parsed JSON value, and [login] is that handler on strings.
    - The libraries the code calls into ([jsonwebtoken], [bcryptjs]) are
      section variables, and so is what Mongoose and MongoDB make of a
      query filter that is not a string; what the handlers do with their
      results is modelled in full.
    - The collection is a list of stored documents in insertion order and
      the store is reliable: the only failures are the ones Mongoose
      raises itself (validation, duplicate key, missing document). *)

From Stdlib Require Import String Ascii List Bool Arith ZArith Lia.
Import ListNotations.
Local Open Scope string_scope.
Set Warnings "-register-all".

(** ** JavaScript value helpers *)

(** Truthiness of a [string | undefined] value: [undefined] and the empty
    string are falsy. *)
Definition truthy (v : option string) : bool :=
  match v with
  | None => false
  | Some s => negb (String.eqb s "")
  end.

(** [a || b] on [string | undefined] operands with a string default. *)
Definition orElse (a : option string) (b : string) : string :=
  match a with
  | Some s => if String.eqb s "" then b else s
  | None => b
  end.

(** The string itself when it is truthy. *)
Definition nonEmpty (v : option string) : option string :=
  match v with
  | Some s => if String.eqb s "" then None else Some s
  | None => None
  end.

(** [s.startsWith(p)] *)
Definition startsWith (s p : string) : bool := String.prefix p s.

(** [s.substring(n)] *)
Fixpoint substringFrom (n : nat) (s : string) : string :=
  match n, s with
  | O, _ => s
  | S _, EmptyString => EmptyString
  | S n', String _ s' => substringFrom n' s'
  end.

(** [xs.join(sep)] *)
Definition join (sep : string) (xs : list string) : string :=
  String.concat sep xs.

(** ** JSON values and HTTP responses *)

Inductive Json : Type :=
| JNull
| JBool (b : bool)
| JNum (n : Z)
| JStr (s : string)
| JArr (xs : list Json)
| JObj (fields : list (string * Json)).

(** An optional property: [undefined] properties are dropped by
    [JSON.stringify]. *)
Definition optField (k : string) (v : option Json) : list (string * Json) :=
  match v with
  | Some j => [(k, j)]
  | None => []
  end.

(** Does an object with property name [k] occur anywhere in the value? *)
Fixpoint hasKey (k : string) (j : Json) : bool :=
  match j with
  | JArr xs => existsb (hasKey k) xs
  | JObj fs =>
      existsb (fun kv => String.eqb (fst kv) k || hasKey k (snd kv)) fs
  | _ => false
  end.

(** Truthiness of a property of a parsed body: [undefined], [null],
    [false], [0] and the empty string are falsy, arrays and objects are
    truthy. *)
Definition truthyJson (v : option Json) : bool :=
  match v with
  | None => false
  | Some JNull => false
  | Some (JBool b) => b
  | Some (JNum n) => negb (Z.eqb n 0)
  | Some (JStr s) => negb (String.eqb s "")
  | Some (JArr _) => true
  | Some (JObj _) => true
  end.

(** [typeof v] for a parsed value. *)
Definition typeOf (v : Json) : string :=
  match v with
  | JBool _ => "boolean"
  | JNum _ => "number"
  | JStr _ => "string"
  | JNull | JArr _ | JObj _ => "object"
  end.

(** [res.status(code).json(body)] *)
Record Response : Type := mkResponse {
  status : nat;
  json : Json
}.

(** ** Errors and the result of code that may throw *)

Inductive Error : Type :=
| ValidationError (msg : string)
| DuplicateKeyError (msg : string)
| DocumentNotFoundError (msg : string)
| JsonWebTokenError (msg : string)
| OtherError (msg : string).

(** [error.message] *)
Definition message (e : Error) : string :=
  match e with
  | ValidationError m | DuplicateKeyError m | DocumentNotFoundError m
  | JsonWebTokenError m | OtherError m => m
  end.

Inductive Result (A : Type) : Type :=
| Ret (a : A)
| Throw (e : Error).
Arguments Ret {A} a.
Arguments Throw {A} e.

Definition rbind {A B} (m : Result A) (k : A -> Result B) : Result B :=
  match m with
  | Ret a => k a
  | Throw e => Throw e
  end.

(** [try { body } catch (error) { handler }] *)
Definition tryCatch {A} (body : Result A) (handler : Error -> Result A)
  : Result A :=
  match body with
  | Ret a => Ret a
  | Throw e => handler e
  end.

Declare Scope result_scope.
Delimit Scope result_scope with result.
Notation "x <- m ;; k" := (rbind m (fun x => k))
  (at level 61, m at next level, right associativity) : result_scope.

(** ** types/index.ts *)

Inductive UserRole : Type := STUDENT | INSTRUCTOR | ADMIN.

(** The string value of each enum member. *)
Definition roleValue (r : UserRole) : string :=
  match r with
  | STUDENT => "student"
  | INSTRUCTOR => "instructor"
  | ADMIN => "admin"
  end.

(** [Object.values(UserRole)] *)
Definition UserRole_values : list UserRole := [STUDENT; INSTRUCTOR; ADMIN].

Definition UserRole_eqb (a b : UserRole) : bool :=
  match a, b with
  | STUDENT, STUDENT | INSTRUCTOR, INSTRUCTOR | ADMIN, ADMIN => true
  | _, _ => false
  end.

(** The enum member a string denotes, if any. *)
Definition castRole (s : string) : option UserRole :=
  find (fun r => String.eqb (roleValue r) s) UserRole_values.

Module Payload.
Record t : Type := mk {
  id : string;
  role : UserRole;
  email : string
}.
End Payload.
Definition JWTPayload : Type := Payload.t.

(** The properties of [req.body] the handlers destructure, each a string
    or [undefined]: the types the schema declares for them and the
    handlers' checks are written for. *)
Record Body : Type := mkBody {
  b_firstName : option string;
  b_lastName : option string;
  b_email : option string;
  b_password : option string;
  b_role : option string;
  b_bio : option string;
  b_avatar : option string
}.

Definition emptyBody : Body := mkBody None None None None None None None.

Record AuthRequest : Type := mkRequest {
  authorization : option string;   (* req.headers.authorization *)
  body : Body;
  user : option JWTPayload
}.

(** [req.user = p] *)
Definition setUser (req : AuthRequest) (p : JWTPayload) : AuthRequest :=
  mkRequest (authorization req) (body req) (Some p).

(** What a middleware did with the request: it either sent a response
    (and the chain stops) or called [next()] on the possibly mutated
    request. *)
Inductive Outcome : Type :=
| Responded (res : Response)
| CalledNext (req : AuthRequest).

Definition failure (code : nat) (msg : string) : Response :=
  mkResponse code (JObj [("success", JBool false); ("message", JStr msg)]).

(** ** Process configuration *)

Record Env : Type := mkEnv {
  JWT_SECRET : option string;
  JWT_EXPIRE : option string
}.

Definition secretOf (env : Env) : string :=
  orElse (JWT_SECRET env) "default-secret-key".

Definition expiresInOf (env : Env) : string :=
  orElse (JWT_EXPIRE env) "7d".

(** ** utils/jwt.ts and middleware/auth.ts *)

(** [roles.includes(r)] *)
Definition includes (roles : list UserRole) (r : UserRole) : bool :=
  existsb (UserRole_eqb r) roles.

(** [extractToken] *)
Definition extractToken (authHeader : option string) : option string :=
  match authHeader with
  | None => None
  | Some h =>
      if negb (truthy (Some h)) || negb (startsWith h "Bearer ")
      then None
      else Some (substringFrom 7 h)
  end.

(** The body of [protect], over the two helpers it calls. Either helper
    may throw; the [try]/[catch] of the source surrounds both calls. *)
Definition protectWith
    (extract : option string -> Result (option string))
    (verify : string -> Result (option JWTPayload))
    (req : AuthRequest) : Result Outcome :=
  tryCatch
    (token <- extract (authorization req) ;;
     match nonEmpty token with
     | None =>
         Ret (Responded
                (failure 401
                   "Not authorized. Please login to access this resource."))
     | Some tok =>
         decoded <- verify tok ;;
         match decoded with
         | None =>
             Ret (Responded
                    (failure 401
                       "Invalid or expired token. Please login again."))
         | Some p => Ret (CalledNext (setUser req p))
         end
     end)%result
    (fun _ => Ret (Responded (failure 401 "Authentication failed"))).

(** The body of [optionalAuth], over the same two helpers. *)
Definition optionalAuthWith
    (extract : option string -> Result (option string))
    (verify : string -> Result (option JWTPayload))
    (req : AuthRequest) : Result Outcome :=
  tryCatch
    (token <- extract (authorization req) ;;
     match nonEmpty token with
     | Some tok =>
         decoded <- verify tok ;;
         match decoded with
         | Some p => Ret (CalledNext (setUser req p))
         | None => Ret (CalledNext req)
         end
     | None => Ret (CalledNext req)
     end)%result
    (fun _ => Ret (CalledNext req)).

(** [authorize(...roles)] *)
Definition authorize (roles : list UserRole) (req : AuthRequest) : Outcome :=
  match user req with
  | None => Responded (failure 401 "Not authenticated")
  | Some u =>
      if negb (includes roles (Payload.role u)) then
        Responded
          (failure 403
             ("Access denied. This resource is only accessible to "
                ++ join ", " (map roleValue roles) ++ " users."))
      else CalledNext req
  end.

(** ** Strings as the schema's setters and validators see them *)

(** White space and line terminators below U+0080. *)
Definition isSpace (c : ascii) : bool :=
  let n := nat_of_ascii c in
  (((9 <=? n) && (n <=? 13)) || (n =? 32))%nat.

Fixpoint trimStart (s : string) : string :=
  match s with
  | EmptyString => EmptyString
  | String c s' => if isSpace c then trimStart s' else s
  end.

Fixpoint trimEnd (s : string) : string :=
  match s with
  | EmptyString => EmptyString
  | String c s' =>
      let t := trimEnd s' in
      if isSpace c && String.eqb t "" then EmptyString else String c t
  end.

(** [s.trim()] *)
Definition trim (s : string) : string := trimEnd (trimStart s).

Definition lowerChar (c : ascii) : ascii :=
  let n := nat_of_ascii c in
  if ((65 <=? n) && (n <=? 90))%nat then ascii_of_nat (n + 32) else c.

(** [s.toLowerCase()] *)
Fixpoint toLowerCase (s : string) : string :=
  match s with
  | EmptyString => EmptyString
  | String c s' => String (lowerChar c) (toLowerCase s')
  end.

(** *** Regular expressions, matched by derivatives *)

Inductive Regex : Type :=
| RNone
| REps
| RClass (p : ascii -> bool)
| RSeq (a b : Regex)
| RAlt (a b : Regex)
| RStar (a : Regex).

Fixpoint nullable (r : Regex) : bool :=
  match r with
  | RNone | RClass _ => false
  | REps | RStar _ => true
  | RSeq a b => nullable a && nullable b
  | RAlt a b => nullable a || nullable b
  end.

(** Sequence and alternative that drop branches that can no longer
    match. *)
Definition seq' (a b : Regex) : Regex :=
  match a with
  | RNone => RNone
  | _ => RSeq a b
  end.

Definition alt' (a b : Regex) : Regex :=
  match a, b with
  | RNone, _ => b
  | _, RNone => a
  | _, _ => RAlt a b
  end.

Fixpoint deriv (c : ascii) (r : Regex) : Regex :=
  match r with
  | RNone | REps => RNone
  | RClass p => if p c then REps else RNone
  | RSeq a b =>
      if nullable a then alt' (seq' (deriv c a) b) (deriv c b)
      else seq' (deriv c a) b
  | RAlt a b => alt' (deriv c a) (deriv c b)
  | RStar a => seq' (deriv c a) (RStar a)
  end.

(** [/^r$/.test(s)] *)
Fixpoint test (r : Regex) (s : string) : bool :=
  match s with
  | EmptyString => nullable r
  | String c s' => test (deriv c r) s'
  end.

Definition RPlus (r : Regex) : Regex := RSeq r (RStar r).
Definition ROpt (r : Regex) : Regex := RAlt r REps.
Definition RChar (c : ascii) : Regex := RClass (Ascii.eqb c).

(** [\w] *)
Definition isWord (c : ascii) : bool :=
  let n := nat_of_ascii c in
  (((48 <=? n) && (n <=? 57)) || ((65 <=? n) && (n <=? 90))
   || ((97 <=? n) && (n <=? 122)) || (n =? 95))%nat.

Definition word : Regex := RClass isWord.

(** [[\.-]] *)
Definition dotOrDash : Regex :=
  RClass (fun c => Ascii.eqb c "."%char || Ascii.eqb c "-"%char).

(** [/^\w+([\.-]?\w+)*@\w+([\.-]?\w+)*(\.\w{2,3})+$/] *)
Definition emailPattern : Regex :=
  let name := RSeq (RPlus word) (RStar (RSeq (ROpt dotOrDash) (RPlus word))) in
  RSeq name
    (RSeq (RChar "@"%char)
       (RSeq name
          (RPlus (RSeq (RChar "."%char)
                    (RSeq word (RSeq word (ROpt word))))))).

(** ** models/User.ts: documents *)

(** A user document. [password] is [None] on a document loaded without
    the field ([select: false]); [avatar] always has a value, the schema
    gives it a default; a [Date] is its time value. *)
Record IUser : Type := mkUser {
  _id : string;
  firstName : string;
  lastName : string;
  email : string;
  password : option string;
  role : UserRole;
  avatar : string;
  bio : option string;
  createdAt : Z;
  updatedAt : Z;
  enrolledCourses : list string;
  createdCourses : list string;
  isVerified : bool;
  resetPasswordToken : option string;
  resetPasswordExpire : option Z
}.

Definition withFirstName (v : string) (u : IUser) : IUser :=
  mkUser (_id u) v (lastName u) (email u) (password u) (role u) (avatar u)
    (bio u) (createdAt u) (updatedAt u) (enrolledCourses u)
    (createdCourses u) (isVerified u) (resetPasswordToken u)
    (resetPasswordExpire u).

Definition withLastName (v : string) (u : IUser) : IUser :=
  mkUser (_id u) (firstName u) v (email u) (password u) (role u) (avatar u)
    (bio u) (createdAt u) (updatedAt u) (enrolledCourses u)
    (createdCourses u) (isVerified u) (resetPasswordToken u)
    (resetPasswordExpire u).

Definition withEmail (v : string) (u : IUser) : IUser :=
  mkUser (_id u) (firstName u) (lastName u) v (password u) (role u)
    (avatar u) (bio u) (createdAt u) (updatedAt u) (enrolledCourses u)
    (createdCourses u) (isVerified u) (resetPasswordToken u)
    (resetPasswordExpire u).

Definition withPassword (v : option string) (u : IUser) : IUser :=
  mkUser (_id u) (firstName u) (lastName u) (email u) v (role u) (avatar u)
    (bio u) (createdAt u) (updatedAt u) (enrolledCourses u)
    (createdCourses u) (isVerified u) (resetPasswordToken u)
    (resetPasswordExpire u).

Definition withRole (v : UserRole) (u : IUser) : IUser :=
  mkUser (_id u) (firstName u) (lastName u) (email u) (password u) v
    (avatar u) (bio u) (createdAt u) (updatedAt u) (enrolledCourses u)
    (createdCourses u) (isVerified u) (resetPasswordToken u)
    (resetPasswordExpire u).

Definition withAvatar (v : string) (u : IUser) : IUser :=
  mkUser (_id u) (firstName u) (lastName u) (email u) (password u) (role u)
    v (bio u) (createdAt u) (updatedAt u) (enrolledCourses u)
    (createdCourses u) (isVerified u) (resetPasswordToken u)
    (resetPasswordExpire u).

Definition withBio (v : option string) (u : IUser) : IUser :=
  mkUser (_id u) (firstName u) (lastName u) (email u) (password u) (role u)
    (avatar u) v (createdAt u) (updatedAt u) (enrolledCourses u)
    (createdCourses u) (isVerified u) (resetPasswordToken u)
    (resetPasswordExpire u).

Definition withCreatedAt (v : Z) (u : IUser) : IUser :=
  mkUser (_id u) (firstName u) (lastName u) (email u) (password u) (role u)
    (avatar u) (bio u) v (updatedAt u) (enrolledCourses u)
    (createdCourses u) (isVerified u) (resetPasswordToken u)
    (resetPasswordExpire u).

Definition withUpdatedAt (v : Z) (u : IUser) : IUser :=
  mkUser (_id u) (firstName u) (lastName u) (email u) (password u) (role u)
    (avatar u) (bio u) (createdAt u) v (enrolledCourses u)
    (createdCourses u) (isVerified u) (resetPasswordToken u)
    (resetPasswordExpire u).

(** The schema paths the program assigns. *)
Inductive Path : Type :=
| P_firstName | P_lastName | P_email | P_password | P_role | P_avatar | P_bio.

Definition Path_eqb (a b : Path) : bool :=
  match a, b with
  | P_firstName, P_firstName | P_lastName, P_lastName | P_email, P_email
  | P_password, P_password | P_role, P_role | P_avatar, P_avatar
  | P_bio, P_bio => true
  | _, _ => false
  end.

Definition pathName (p : Path) : string :=
  match p with
  | P_firstName => "firstName"
  | P_lastName => "lastName"
  | P_email => "email"
  | P_password => "password"
  | P_role => "role"
  | P_avatar => "avatar"
  | P_bio => "bio"
  end.

Definition allPaths : list Path :=
  [P_firstName; P_lastName; P_email; P_password; P_role; P_avatar; P_bio].

(** A Mongoose document in memory: its values, whether it has never been
    saved, and the paths assigned since it was loaded or created. *)
Record Document : Type := mkDoc {
  doc : IUser;
  isNew : bool;
  modifiedPaths : list Path
}.

(** [this.isModified(path)] *)
Definition isModified (p : Path) (d : Document) : bool :=
  existsb (Path_eqb p) (modifiedPaths d).

Definition markModified (p : Path) (d : Document) : Document :=
  if isModified p d then d
  else mkDoc (doc d) (isNew d) (p :: modifiedPaths d).

(** [user.firstName = v]: the path's setters run ([trim: true]) and the
    path is marked modified when the value changes. *)
Definition setFirstName (v : string) (d : Document) : Document :=
  let v' := trim v in
  if String.eqb v' (firstName (doc d)) then d
  else markModified P_firstName
         (mkDoc (withFirstName v' (doc d)) (isNew d) (modifiedPaths d)).

(** [user.lastName = v] *)
Definition setLastName (v : string) (d : Document) : Document :=
  let v' := trim v in
  if String.eqb v' (lastName (doc d)) then d
  else markModified P_lastName
         (mkDoc (withLastName v' (doc d)) (isNew d) (modifiedPaths d)).

Definition optString_eqb (a b : option string) : bool :=
  match a, b with
  | Some x, Some y => String.eqb x y
  | None, None => true
  | _, _ => false
  end.

(** [user.bio = v] *)
Definition setBio (v : string) (d : Document) : Document :=
  if optString_eqb (Some v) (bio (doc d)) then d
  else markModified P_bio
         (mkDoc (withBio (Some v) (doc d)) (isNew d) (modifiedPaths d)).

(** [user.avatar = v] *)
Definition setAvatar (v : string) (d : Document) : Document :=
  if String.eqb v (avatar (doc d)) then d
  else markModified P_avatar
         (mkDoc (withAvatar v (doc d)) (isNew d) (modifiedPaths d)).

(** *** Schema validators *)

(** The message of the first failing validator of a path, if any. *)
Definition validatePath (p : Path) (u : IUser) : option string :=
  match p with
  | P_firstName =>
      if String.eqb (firstName u) "" then Some "First name is required"
      else if (50 <? String.length (firstName u))%nat
           then Some "First name cannot exceed 50 characters"
           else None
  | P_lastName =>
      if String.eqb (lastName u) "" then Some "Last name is required"
      else if (50 <? String.length (lastName u))%nat
           then Some "Last name cannot exceed 50 characters"
           else None
  | P_email =>
      if String.eqb (email u) "" then Some "Email is required"
      else if negb (test emailPattern (email u))
           then Some "Please provide a valid email address"
           else None
  | P_password =>
      match nonEmpty (password u) with
      | None => Some "Password is required"
      | Some pw =>
          if (String.length pw <? 6)%nat
          then Some "Password must be at least 6 characters"
          else None
      end
  | P_role => None
  | P_avatar => None
  | P_bio =>
      match bio u with
      | Some b =>
          if (500 <? String.length b)%nat
          then Some "Bio cannot exceed 500 characters"
          else None
      | None => None
      end
  end.

(** Is the path present on the document? Only [password] can have been
    left out of a query result. *)
Definition isSelected (p : Path) (d : Document) : bool :=
  match p with
  | P_password =>
      match password (doc d) with Some _ => true | None => false end
  | _ => true
  end.

(** The paths [save] validates: all of them on a new document, and on a
    loaded one those that were selected or have been assigned since. *)
Definition pathsToValidate (d : Document) : list Path :=
  filter (fun p => isNew d || isSelected p d || isModified p d) allPaths.

Definition validationErrors (d : Document) : list string :=
  flat_map
    (fun p =>
       match validatePath p (doc d) with
       | Some msg => [pathName p ++ ": " ++ msg]
       | None => []
       end)
    (pathsToValidate d).

(** [doc.validate()] *)
Definition validate (d : Document) : Result unit :=
  match validationErrors d with
  | [] => Ret tt
  | errs => Throw (ValidationError ("User validation failed: " ++ join ", " errs))
  end.

(** ** The collection and the store monad *)

(** What a request draws from outside the program: the ObjectId given to
    a new document, the salt [bcrypt.genSalt] returns, and the clock. *)
Record World : Type := mkWorld {
  oid : string;
  salt : string;
  now : Z
}.

Definition Store : Type := list IUser.

(** A computation that reads and writes the collection and may throw;
    the collection keeps the writes made before a throw. *)
Definition M (A : Type) : Type := Store -> Result A * Store.

Definition mret {A} (a : A) : M A := fun st => (Ret a, st).

Definition mthrow {A} (e : Error) : M A := fun st => (Throw e, st).

Definition lift {A} (r : Result A) : M A := fun st => (r, st).

Definition mbind {A B} (m : M A) (k : A -> M B) : M B :=
  fun st =>
    match m st with
    | (Ret a, st') => k a st'
    | (Throw e, st') => (Throw e, st')
    end.

(** [try { body } catch (error) { handler }] around store operations. *)
Definition mtry {A} (body : M A) (handler : Error -> M A) : M A :=
  fun st =>
    match body st with
    | (Ret a, st') => (Ret a, st')
    | (Throw e, st') => handler e st'
    end.

Declare Scope store_scope.
Delimit Scope store_scope with store.
Notation "x <- m ;; k" := (mbind m (fun x => k))
  (at level 61, m at next level, right associativity) : store_scope.

(** The [lowercase] and [trim] setters of the [email] path; Mongoose
    casts a query filter through them as well. *)
Definition castEmail (e : string) : string := trim (toLowerCase e).

(** A query result as a document; [password] is kept only under
    [.select('+password')]. *)
Definition hydrate (selectPassword : bool) (u : IUser) : Document :=
  mkDoc (if selectPassword then u else withPassword None u) false [].

(** The stored document a filter on [email] matches first. *)
Definition lookupByEmail (e : string) (st : Store) : option IUser :=
  find (fun u => String.eqb (email u) (castEmail e)) st.

(** [User.findOne({ email })], with or without [.select('+password')]. *)
Definition findOne (e : string) (selectPassword : bool)
  : M (option Document) :=
  fun st => (Ret (option_map (hydrate selectPassword) (lookupByEmail e st)), st).

Definition lookupById (i : string) (st : Store) : option IUser :=
  find (fun u => String.eqb (_id u) i) st.

(** [User.findById(id)]; an [undefined] id matches nothing. *)
Definition findById (i : option string) : M (option Document) :=
  fun st =>
    match i with
    | None => (Ret None, st)
    | Some i' => (Ret (option_map (hydrate false) (lookupById i' st)), st)
    end.

(** Insertion under the unique indexes on [_id] and [email]. *)
Definition insertOne (u : IUser) : M unit :=
  fun st =>
    if existsb (fun v => String.eqb (_id v) (_id u)
                         || String.eqb (email v) (email u)) st
    then (Throw (DuplicateKeyError "E11000 duplicate key error collection: users"), st)
    else (Ret tt, (st ++ [u])%list).

Definition copyPath (src : IUser) (p : Path) (dst : IUser) : IUser :=
  match p with
  | P_firstName => withFirstName (firstName src) dst
  | P_lastName => withLastName (lastName src) dst
  | P_email => withEmail (email src) dst
  | P_password => withPassword (password src) dst
  | P_role => withRole (role src) dst
  | P_avatar => withAvatar (avatar src) dst
  | P_bio => withBio (bio src) dst
  end.

(** The [$set] an update sends: the modified paths and [updatedAt]. *)
Definition applyUpdate (src : IUser) (paths : list Path) (dst : IUser)
  : IUser :=
  match paths with
  | [] => dst
  | _ => withUpdatedAt (updatedAt src) (fold_right (copyPath src) dst paths)
  end.

Fixpoint replaceById (i : string) (f : IUser -> IUser) (st : Store)
  : option Store :=
  match st with
  | [] => None
  | u :: rest =>
      if String.eqb (_id u) i then Some (f u :: rest)
      else option_map (cons u) (replaceById i f rest)
  end.

(** The update [save] sends for a document that is not new. *)
Definition updateOne (d : Document) : M unit :=
  fun st =>
    if isModified P_email d
       && existsb (fun v => String.eqb (email v) (email (doc d))
                            && negb (String.eqb (_id v) (_id (doc d)))) st
    then (Throw (DuplicateKeyError "E11000 duplicate key error collection: users"), st)
    else
      match replaceById (_id (doc d))
              (applyUpdate (doc d) (modifiedPaths d)) st with
      | Some st' => (Ret tt, st')
      | None =>
          (Throw (DocumentNotFoundError "No document found for query"), st)
      end.

(** The timestamps the schema option [timestamps: true] maintains. *)
Definition timestamps (w : World) (d : Document) : Document :=
  if isNew d then
    mkDoc (withUpdatedAt (now w) (withCreatedAt (now w) (doc d)))
      (isNew d) (modifiedPaths d)
  else
    match modifiedPaths d with
    | [] => d
    | _ => mkDoc (withUpdatedAt (now w) (doc d)) (isNew d) (modifiedPaths d)
    end.

Definition defaultAvatar : string := "https://via.placeholder.com/150".

(** [new User({ firstName, lastName, email, password, role })]: the
    setters have run, the defaults are filled in and the paths given are
    marked modified. *)
Definition newDocument (w : World) (fn ln e pw : string) (r : UserRole)
  : Document :=
  mkDoc
    (mkUser (oid w) (trim fn) (trim ln) (castEmail e) (Some pw) r
       defaultAvatar None 0 0 [] [] false None None)
    true
    [P_firstName; P_lastName; P_email; P_password; P_role].

Definition strings (xs : list string) : Json := JArr (map JStr xs).

(** [doc.toJSON()]: the schema paths that are set, [_id] and the
    timestamps. *)
Definition toJSON (u : IUser) : Json :=
  JObj
    ([("_id", JStr (_id u));
      ("firstName", JStr (firstName u));
      ("lastName", JStr (lastName u));
      ("email", JStr (email u))]
     ++ optField "password" (option_map JStr (password u))
     ++ [("role", JStr (roleValue (role u)));
         ("avatar", JStr (avatar u))]
     ++ optField "bio" (option_map JStr (bio u))
     ++ [("enrolledCourses", strings (enrolledCourses u));
         ("createdCourses", strings (createdCourses u));
         ("isVerified", JBool (isVerified u))]
     ++ optField "resetPasswordToken"
          (option_map JStr (resetPasswordToken u))
     ++ optField "resetPasswordExpire"
          (option_map JNum (resetPasswordExpire u))
     ++ [("createdAt", JNum (createdAt u));
         ("updatedAt", JNum (updatedAt u))])%list.

(** The [user] object of the register response. *)
Definition registerView (u : IUser) : Json :=
  JObj [("id", JStr (_id u));
        ("firstName", JStr (firstName u));
        ("lastName", JStr (lastName u));
        ("email", JStr (email u));
        ("role", JStr (roleValue (role u)));
        ("avatar", JStr (avatar u))].

(** The [user] object of the login response. *)
Definition loginView (u : IUser) : Json :=
  JObj ([("id", JStr (_id u));
         ("firstName", JStr (firstName u));
         ("lastName", JStr (lastName u));
         ("email", JStr (email u));
         ("role", JStr (roleValue (role u)));
         ("avatar", JStr (avatar u))]
        ++ optField "bio" (option_map JStr (bio u)))%list.

(** The [user] object of the getMe response. *)
Definition meView (u : IUser) : Json :=
  JObj ([("id", JStr (_id u));
         ("firstName", JStr (firstName u));
         ("lastName", JStr (lastName u));
         ("email", JStr (email u));
         ("role", JStr (roleValue (role u)));
         ("avatar", JStr (avatar u))]
        ++ optField "bio" (option_map JStr (bio u))
        ++ [("enrolledCourses", strings (enrolledCourses u));
            ("createdCourses", strings (createdCourses u));
            ("createdAt", JNum (createdAt u))])%list.

(** The 500 response of a handler's [catch] block. *)
Definition serverError (msg : string) (error : Error) : Response :=
  mkResponse 500
    (JObj [("success", JBool false);
           ("message", JStr msg);
           ("error", JStr (message error))]).

Section Core.

(** [jwt.sign(payload, secret, { expiresIn })] and
    [jwt.verify(token, secret)] of jsonwebtoken; both throw on failure. *)
Variable jwt_sign : JWTPayload -> string -> string -> Result string.
Variable jwt_verify : string -> string -> Result JWTPayload.

(** [bcrypt.hash(plaintext, salt)] and [bcrypt.compare(candidate, hash)]
    of bcryptjs. *)
Variable bcrypt_hash : string -> string -> string.
Variable bcrypt_compare : string -> string -> bool.

(** [process.env] *)
Variable env : Env.

(** *** utils/jwt.ts *)

(** [generateToken] *)
Definition generateToken (payload : JWTPayload) : Result string :=
  jwt_sign payload (secretOf env) (expiresInOf env).

(** [verifyToken] *)
Definition verifyToken (token : string) : Result (option JWTPayload) :=
  tryCatch
    (decoded <- jwt_verify token (secretOf env) ;;
     Ret (Some decoded))%result
    (fun _ => Ret None).

(** *** middleware/auth.ts *)

(** [protect] *)
Definition protect (req : AuthRequest) : Result Outcome :=
  protectWith (fun h => Ret (extractToken h)) verifyToken req.

(** [optionalAuth] *)
Definition optionalAuth (req : AuthRequest) : Result Outcome :=
  optionalAuthWith (fun h => Ret (extractToken h)) verifyToken req.

(** *** models/User.ts: hooks and methods *)

(** [UserSchema.pre('save', ...)] *)
Definition preSave (w : World) (d : Document) : Result Document :=
  if negb (isModified P_password d) then Ret d
  else
    tryCatch
      match password (doc d) with
      | Some pw =>
          Ret (mkDoc (withPassword (Some (bcrypt_hash pw (salt w))) (doc d))
                 (isNew d) (modifiedPaths d))
      | None => Throw (OtherError "Illegal arguments: undefined, string")
      end
      (fun error => Throw error).

(** [doc.save()]: validation, the pre-save hooks, then the write. *)
Definition save (w : World) (d : Document) : M Document :=
  (_ <- lift (validate d) ;;
   d1 <- lift (preSave w d) ;;
   let d2 := timestamps w d1 in
   _ <- (if isNew d2 then insertOne (doc d2) else updateOne d2) ;;
   mret (mkDoc (doc d2) false []))%store.

(** The failure of the [enum] validator of [role]. *)
Definition roleError (r : string) : string :=
  "role: `" ++ r ++ "` is not a valid enum value for path `role`.".

(** [User.create({ firstName, lastName, email, password, role })]; a role
    outside the enum fails validation along with every other failing
    path, [role] being the last of them. *)
Definition create (w : World) (fn ln e pw r : string) : M Document :=
  match castRole r with
  | None =>
      mthrow
        (ValidationError
           ("User validation failed: "
              ++ join ", "
                   (validationErrors (newDocument w fn ln e pw STUDENT)
                      ++ [roleError r])%list))
  | Some r' => save w (newDocument w fn ln e pw r')
  end.

(** [comparePassword]: [bcrypt.compare] rejects a candidate or a hash
    that is not a string, naming the types of both. *)
Definition comparePassword (u : IUser) (candidatePassword : Json)
  : Result bool :=
  match candidatePassword, password u with
  | JStr c, Some h => Ret (bcrypt_compare c h)
  | _, Some _ =>
      Throw (OtherError
               ("Illegal arguments: " ++ typeOf candidatePassword
                  ++ ", string"))
  | _, None =>
      Throw (OtherError
               ("Illegal arguments: " ++ typeOf candidatePassword
                  ++ ", undefined"))
  end.

(** [getSignedJwtToken] *)
Definition getSignedJwtToken (u : IUser) : Result string :=
  jwt_sign (Payload.mk (_id u) (role u) (email u))
    (secretOf env) (expiresInOf env).

(** *** controllers/authController.ts *)

(** [register] *)
Definition register (w : World) (req : AuthRequest) : M Response :=
  mtry
    (let b := body req in
     match nonEmpty (b_firstName b), nonEmpty (b_lastName b),
           nonEmpty (b_email b), nonEmpty (b_password b) with
     | Some fn, Some ln, Some e, Some pw =>
         existingUser <- findOne e false ;;
         match existingUser with
         | Some _ =>
             mret (failure 400 "User with this email already exists")
         | None =>
             u <- create w fn ln e pw (orElse (b_role b) "student") ;;
             token <- lift (getSignedJwtToken (doc u)) ;;
             mret
               (mkResponse 201
                  (JObj [("success", JBool true);
                         ("message", JStr "User registered successfully");
                         ("data",
                          JObj [("user", registerView (doc u));
                                ("token", JStr token)])]))
         end
     | _, _, _, _ =>
         mret (failure 400 "Please provide all required fields")
     end)%store
    (fun error => mret (serverError "Error registering user" error)).

(** [login], for a body whose [email] and [password] are strings or
    absent. *)
Definition login (req : AuthRequest) : M Response :=
  mtry
    (let b := body req in
     match nonEmpty (b_email b), nonEmpty (b_password b) with
     | Some e, Some pw =>
         found <- findOne e true ;;
         match found with
         | None => mret (failure 401 "Invalid credentials")
         | Some u =>
             isPasswordMatch <- lift (comparePassword (doc u) (JStr pw)) ;;
             if negb isPasswordMatch then
               mret (failure 401 "Invalid credentials")
             else
               token <- lift (getSignedJwtToken (doc u)) ;;
               mret
                 (mkResponse 200
                    (JObj [("success", JBool true);
                           ("message", JStr "Login successful");
                           ("data",
                            JObj [("user", loginView (doc u));
                                  ("token", JStr token)])]))
         end
     | _, _ => mret (failure 400 "Please provide email and password")
     end)%store
    (fun error => mret (serverError "Error logging in" error)).

(** [getMe] *)
Definition getMe (req : AuthRequest) : M Response :=
  mtry
    (found <- findById (option_map Payload.id (user req)) ;;
     match found with
     | None => mret (failure 404 "User not found")
     | Some u =>
         mret
           (mkResponse 200
              (JObj [("success", JBool true);
                     ("data", JObj [("user", meView (doc u))])]))
     end)%store
    (fun error => mret (serverError "Error fetching user data" error)).

(** The four conditional assignments of [updateProfile]. *)
Definition applyProfile (b : Body) (d : Document) : Document :=
  let d1 := match nonEmpty (b_firstName b) with
            | Some v => setFirstName v d
            | None => d
            end in
  let d2 := match nonEmpty (b_lastName b) with
            | Some v => setLastName v d1
            | None => d1
            end in
  let d3 := match b_bio b with
            | Some v => setBio v d2
            | None => d2
            end in
  match nonEmpty (b_avatar b) with
  | Some v => setAvatar v d3
  | None => d3
  end.

(** [updateProfile] *)
Definition updateProfile (w : World) (req : AuthRequest) : M Response :=
  mtry
    (found <- findById (option_map Payload.id (user req)) ;;
     match found with
     | None => mret (failure 404 "User not found")
     | Some u =>
         saved <- save w (applyProfile (body req) u) ;;
         mret
           (mkResponse 200
              (JObj [("success", JBool true);
                     ("message", JStr "Profile updated successfully");
                     ("data", JObj [("user", toJSON (doc saved))])]))
     end)%store
    (fun error => mret (serverError "Error updating profile" error)).

(** [logout] *)
Definition logout (req : AuthRequest) : M Response :=
  mret
    (mkResponse 200
       (JObj [("success", JBool true);
              ("message", JStr "Logged out successfully")])).

End Core.

(** ** Login on any parsed body

    [express.json()] hands [login] whatever JSON the client sent, and the
    handler uses [email] and [password] as they come: the email as the
    filter of [findOne], the password as the candidate of
    [bcrypt.compare]. *)

Section AnyBody.

Variable jwt_sign : JWTPayload -> string -> string -> Result string.
Variable bcrypt_compare : string -> string -> bool.
Variable env : Env.

(** What Mongoose and MongoDB make of a filter value on [email] that is
    not a string (a number, an array, an object of query operators): a
    cast error, or a test of the stored email. *)
Variable mongoFilter : Json -> Result (string -> bool).

(** The documents a filter [{ email: v }] selects; a string is cast
    through the setters of the path and compared. *)
Definition emailFilter (v : Json) : Result (IUser -> bool) :=
  match v with
  | JStr e => Ret (fun u => String.eqb (email u) (castEmail e))
  | _ => rbind (mongoFilter v) (fun f => Ret (fun u => f (email u)))
  end.

(** The stored document the filter matches first. *)
Definition lookupWhere (v : Json) (st : Store) : Result (option IUser) :=
  rbind (emailFilter v) (fun f => Ret (find f st)).

(** [User.findOne({ email })] for any filter value, with or without
    [.select('+password')]. *)
Definition findOneWhere (v : Json) (selectPassword : bool)
  : M (option Document) :=
  fun st =>
    (rbind (lookupWhere v st)
       (fun found => Ret (option_map (hydrate selectPassword) found)), st).

(** [login] *)
Definition loginJson (vEmail vPassword : option Json) : M Response :=
  mtry
    (if negb (truthyJson vEmail) || negb (truthyJson vPassword) then
       mret (failure 400 "Please provide email and password")
     else
       match vEmail, vPassword with
       | Some e, Some pw =>
           found <- findOneWhere e true ;;
           match found with
           | None => mret (failure 401 "Invalid credentials")
           | Some u =>
               isPasswordMatch <- lift (comparePassword bcrypt_compare (doc u) pw) ;;
               if negb isPasswordMatch then
                 mret (failure 401 "Invalid credentials")
               else
                 token <- lift (getSignedJwtToken jwt_sign env (doc u)) ;;
                 mret
                   (mkResponse 200
                      (JObj [("success", JBool true);
                             ("message", JStr "Login successful");
                             ("data",
                              JObj [("user", loginView (doc u));
                                    ("token", JStr token)])]))
           end
       | _, _ => mret (failure 400 "Please provide email and password")
       end)%store
    (fun error => mret (serverError "Error logging in" error)).

End AnyBody.

(** ** The routes of the auth API *)

(** One call to the API: the handler a route dispatches to, with the
    request and what the call draws from outside. *)
Inductive Call : Type :=
| PostRegister (w : World) (req : AuthRequest)
| PostLogin (req : AuthRequest)
| GetMe (req : AuthRequest)
| PutUpdateProfile (w : World) (req : AuthRequest)
| PostLogout (req : AuthRequest).

Definition handle
    (jwt_sign : JWTPayload -> string -> string -> Result string)
    (bcrypt_hash : string -> string -> string)
    (bcrypt_compare : string -> string -> bool)
    (env : Env) (c : Call) : M Response :=
  match c with
  | PostRegister w req => register jwt_sign bcrypt_hash env w req
  | PostLogin req => login jwt_sign bcrypt_compare env req
  | GetMe req => getMe req
  | PutUpdateProfile w req => updateProfile bcrypt_hash w req
  | PostLogout req => logout req
  end.

(** ** Stand-ins for the libraries, for running the model *)

Module Sample.

(** A length in unary, closed by a zero. *)
Fixpoint unary (n : nat) : string :=
  match n with
  | O => "0"
  | S k => String "1"%char (unary k)
  end.

Fixpoint readUnary (s : string) : option (nat * string) :=
  match s with
  | String c rest =>
      if Ascii.eqb c "0"%char then Some (O, rest)
      else if Ascii.eqb c "1"%char then
        match readUnary rest with
        | Some (n, t) => Some (S n, t)
        | None => None
        end
      else None
  | EmptyString => None
  end.

Fixpoint splitAt (n : nat) (s : string) : string * string :=
  match n, s with
  | S k, String c rest =>
      let (a, b) := splitAt k rest in (String c a, b)
  | _, _ => (EmptyString, s)
  end.

Definition roleTag (r : UserRole) : ascii :=
  match r with
  | STUDENT => "s"%char
  | INSTRUCTOR => "i"%char
  | ADMIN => "a"%char
  end.

Definition tagRole (c : ascii) : option UserRole :=
  find (fun r => Ascii.eqb (roleTag r) c) UserRole_values.

Definition encode (p : JWTPayload) : string :=
  String (roleTag (Payload.role p))
    (unary (String.length (Payload.id p))
       ++ Payload.id p ++ Payload.email p).

Definition decode (s : string) : option JWTPayload :=
  match s with
  | String c rest =>
      match tagRole c, readUnary rest with
      | Some r, Some (n, t) =>
          let (i, e) := splitAt n t in Some (Payload.mk i r e)
      | _, _ => None
      end
  | EmptyString => None
  end.

(** A token is the secret, a dot and the encoded payload. *)
Definition jwt_sign (p : JWTPayload) (secret expiresIn : string)
  : Result string :=
  Ret (secret ++ "." ++ encode p).

Definition jwt_verify (token secret : string) : Result JWTPayload :=
  if startsWith token (secret ++ ".") then
    match decode (substringFrom (String.length secret + 1) token) with
    | Some p => Ret p
    | None => Throw (JsonWebTokenError "jwt malformed")
    end
  else Throw (JsonWebTokenError "invalid signature").

(** A "hash" is the salt, a dollar sign and the plaintext. *)
Definition bcrypt_hash (plaintext salt : string) : string :=
  salt ++ "$" ++ plaintext.

Fixpoint afterDollar (s : string) : string :=
  match s with
  | String c rest => if Ascii.eqb c "$"%char then rest else afterDollar rest
  | EmptyString => EmptyString
  end.

Definition bcrypt_compare (candidate hash : string) : bool :=
  String.eqb (afterDollar hash) candidate.

Definition env : Env := mkEnv None None.

Definition world : World := mkWorld "u1" "slt" 1000.

Definition ann : IUser :=
  mkUser "u0" "Ann" "Lee" "ann@lms.io" (Some "slt$secret1") STUDENT
    defaultAvatar None 10 10 [] [] false None None.

Definition store : Store := [ann].

Definition annToken : string := "default-secret-key.s110u0ann@lms.io".

Definition annIdentity : JWTPayload := Payload.mk "u0" STUDENT "ann@lms.io".

(** A request with Ann's token that [protect] has let through. *)
Definition asAnn (b : Body) : AuthRequest :=
  mkRequest (Some ("Bearer " ++ annToken)) b (Some annIdentity).

(** A request without credentials. *)
Definition anonymous (b : Body) : AuthRequest := mkRequest None b None.

(** Bob's registration, with the [role] property as given. *)
Definition bob (r : option string) : Body :=
  mkBody (Some " Bob ") (Some "Ray") (Some "Bob@LMS.io") (Some "hunter22")
    r None None.

Definition bobUser (r : UserRole) : IUser :=
  mkUser "u1" "Bob" "Ray" "bob@lms.io" (Some "slt$hunter22") r
    defaultAvatar None 1000 1000 [] [] false None None.

Definition bobToken (r : UserRole) : string :=
  "default-secret-key." ++ String (roleTag r) "110u1bob@lms.io".

(** A filter that is not a string is refused. *)
Definition mongoFilter (v : Json) : Result (string -> bool) :=
  Throw (OtherError "Cast to string failed for path email").



(** A profile update with a new last name and avatar. *)
Definition newProfile : Body :=
  mkBody None (Some " Smith ") None None None None (Some "a.png").

End Sample.

(** ** What the handlers are expected to store *)

(** The inputs the schema's validators accept for a new user, after the
    setters have run. *)
Definition validNewUser (fn ln e pw : string) : Prop :=
  trim fn <> ""
  /\ String.length (trim fn) <= 50
  /\ trim ln <> ""
  /\ String.length (trim ln) <= 50
  /\ test emailPattern (castEmail e) = true
  /\ 6 <= String.length pw.

(** The document registration stores for the given inputs. *)
Definition createdUser (bcrypt_hash : string -> string -> string)
    (w : World) (fn ln e pw : string) (r : UserRole) : IUser :=
  mkUser (oid w) (trim fn) (trim ln) (castEmail e)
    (Some (bcrypt_hash pw (salt w))) r defaultAvatar None (now w) (now w)
    [] [] false None None.

(** The body of the 201 response of [register]. *)
Definition registered (u : IUser) (token : string) : Json :=
  JObj [("success", JBool true);
        ("message", JStr "User registered successfully");
        ("data",
         JObj [("user", registerView u); ("token", JStr token)])].

(** The stored password is a bcrypt hash of the plaintext. *)
Definition hashOf (bcrypt_hash : string -> string -> string)
    (plaintext : string) (u : IUser) : Prop :=
  exists s, password u = Some (bcrypt_hash plaintext s).

(** A request with another password in its body. *)
Definition withBodyPassword (pw : string) (req : AuthRequest) : AuthRequest :=
  let b := body req in
  mkRequest (authorization req)
    (mkBody (b_firstName b) (b_lastName b) (b_email b) (Some pw)
       (b_role b) (b_bio b) (b_avatar b))
    (user req).

(** The stored document after [updateProfile] has saved the assignments
    the body asks for. *)
Definition updatedUser (w : World) (b : Body) (u : IUser) : IUser :=
  let d := timestamps w (applyProfile b (hydrate false u)) in
  applyUpdate (doc d) (modifiedPaths d) u.

(** The body of the 200 response of [updateProfile]. *)
Definition profileUpdated (u : IUser) : Json :=
  JObj [("success", JBool true);
        ("message", JStr "Profile updated successfully");
        ("data", JObj [("user", toJSON u)])].

(** The paths [updateProfile] assigns. *)
Definition settable (p : Path) : bool :=
  match p with
  | P_firstName | P_lastName | P_bio | P_avatar => true
  | P_email | P_password | P_role => false
  end.

(** The fields no handler assigns after creation, [password] aside. *)
Definition untouched (u : IUser) :=
  (_id u, email u, role u, createdAt u, enrolledCourses u, createdCourses u,
   isVerified u, resetPasswordToken u, resetPasswordExpire u).

(** A document loaded from the stored [u] without its password and then
    assigned to by [updateProfile]: it is not new, only settable paths are
    marked, and a path that is not marked still has the stored value. *)
Definition Tracks (u : IUser) (d : Document) : Prop :=
  isNew d = false
  /\ forallb settable (modifiedPaths d) = true
  /\ untouched (doc d) = untouched u
  /\ password (doc d) = None
  /\ (isModified P_firstName d = false -> firstName (doc d) = firstName u)
  /\ (isModified P_lastName d = false -> lastName (doc d) = lastName u)
  /\ (isModified P_bio d = false -> bio (doc d) = bio u)
  /\ (isModified P_avatar d = false -> avatar (doc d) = avatar u).

(** ** What a pattern denotes *)

(** The strings a regular expression matches in full. *)
Inductive Matches : Regex -> string -> Prop :=
| MEps : Matches REps EmptyString
| MClass (p : ascii -> bool) (c : ascii) :
    p c = true -> Matches (RClass p) (String c EmptyString)
| MSeq (a b : Regex) (s t : string) :
    Matches a s -> Matches b t -> Matches (RSeq a b) (s ++ t)
| MAltL (a b : Regex) (s : string) : Matches a s -> Matches (RAlt a b) s
| MAltR (a b : Regex) (s : string) : Matches b s -> Matches (RAlt a b) s
| MStarNil (a : Regex) : Matches (RStar a) EmptyString
| MStarCons (a : Regex) (s t : string) :
    Matches a s -> Matches (RStar a) t -> Matches (RStar a) (s ++ t).

(** Every character of the string satisfies the test. *)
Fixpoint allChars (p : ascii -> bool) (s : string) : bool :=
  match s with
  | EmptyString => true
  | String c s' => p c && allChars p s'
  end.

(** [[\w.-]]: the characters of the parts of an address around the [@]. *)
Definition isNameChar (c : ascii) : bool :=
  isWord c || Ascii.eqb c "."%char || Ascii.eqb c "-"%char.

(** Every character class of the pattern lies within the test. *)
Fixpoint within (q : ascii -> bool) (r : Regex) : Prop :=
  match r with
  | RClass p => forall c, p c = true -> q c = true
  | RSeq a b | RAlt a b => within q a /\ within q b
  | RStar a => within q a
  | RNone | REps => True
  end.

(** The label after the last dot of an address: [\.\w{2,3}]. *)
Definition topLabel : Regex :=
  RSeq (RChar "."%char) (RSeq word (RSeq word (ROpt word))).

(** The part of an address before the [@], and the start of the part
    after it: [\w+([\.-]?\w+)*]. *)
Definition namePart : Regex :=
  RSeq (RPlus word) (RStar (RSeq (ROpt dotOrDash) (RPlus word))).

(** ** Well-formed collections *)

(** A stored document the schema's validators accept, with a password. *)
Definition validStored (u : IUser) : Prop :=
  firstName u <> ""
  /\ String.length (firstName u) <= 50
  /\ lastName u <> ""
  /\ String.length (lastName u) <= 50
  /\ test emailPattern (email u) = true
  /\ (forall b, bio u = Some b -> String.length b <= 500)
  /\ password u <> None.

(** The unique indexes hold and every document is valid. *)
Definition WellFormed (st : Store) : Prop :=
  NoDup (map _id st) /\ NoDup (map email st) /\ Forall validStored st.

(** What no endpoint may change in a stored document. *)
Definition fixedFields (u : IUser) := (untouched u, password u).

(** The body of the 200 response of [login]. *)
Definition loggedIn (u : IUser) (token : string) : Json :=
  JObj [("success", JBool true);
        ("message", JStr "Login successful");
        ("data", JObj [("user", loginView u); ("token", JStr token)])].

(** The body of the 200 response of [getMe]. *)
Definition fetched (u : IUser) : Json :=
  JObj [("success", JBool true);
        ("data", JObj [("user", meView u)])].

(** * Properties *)

(** ** Basic facts about the helpers *)

Lemma nonEmpty_Some (v : option string) (s : string) :
  nonEmpty v = Some s <-> v = Some s /\ s <> "".
Proof.
  unfold nonEmpty. destruct v as [x|].
  - destruct (String.eqb_spec x "") as [E|E]; split.
    + discriminate.
    + intros [H1 H2]. inversion H1; subst. contradiction.
    + intros H. inversion H; subst. auto.
    + intros [H1 _]. exact H1.
  - split; [discriminate | intros [H _]; discriminate].
Qed.

Lemma nonEmpty_None (v : option string) :
  nonEmpty v = None <-> v = None \/ v = Some "".
Proof.
  unfold nonEmpty. destruct v as [x|].
  - destruct (String.eqb_spec x "") as [E|E]; split; subst; auto.
    intros [H|H]; [discriminate | inversion H; contradiction].
  - split; auto.
Qed.

Lemma includes_In (roles : list UserRole) (r : UserRole) :
  includes roles r = true <-> In r roles.
Proof.
  unfold includes. rewrite existsb_exists. split.
  - intros [x [Hin Heq]]. destruct r, x; simpl in Heq; try discriminate; exact Hin.
  - intros Hin. exists r. split; [exact Hin | destruct r; reflexivity].
Qed.

Lemma extractToken_Some (h : option string) (tok : string) :
  extractToken h = Some tok <->
  exists v, h = Some v /\ startsWith v "Bearer " = true
            /\ tok = substringFrom 7 v.
Proof.
  unfold extractToken. destruct h as [v|].
  - destruct (startsWith v "Bearer ") eqn:Hp.
    + assert (Hv : truthy (Some v) = true).
      { destruct v; [discriminate Hp | reflexivity]. }
      rewrite Hv. simpl. split.
      * intros H. inversion H. exists v. auto.
      * intros [v' [H1 [_ H3]]]. inversion H1; subst. reflexivity.
    + rewrite orb_true_r. split; [discriminate|].
      intros [v' [H1 [H2 _]]]. inversion H1; subst. congruence.
  - split; [discriminate | intros [v [H _]]; discriminate].
Qed.

Lemma extractToken_None (h : option string) :
  extractToken h = None <->
  h = None \/ exists v, h = Some v /\ startsWith v "Bearer " = false.
Proof.
  destruct (extractToken h) as [tok|] eqn:E.
  - apply extractToken_Some in E. destruct E as [v [H1 [H2 _]]].
    split; [discriminate|].
    intros [H|[v' [H3 H4]]]; [congruence|]. 
    rewrite H1 in H3. inversion H3; subst. congruence.
  - split; [|reflexivity]. intros _.
    destruct h as [v|]; [right | left; reflexivity].
    exists v. split; [reflexivity|].
    destruct (startsWith v "Bearer ") eqn:Hp; [|reflexivity].
    assert (extractToken (Some v) = Some (substringFrom 7 v)).
    { apply extractToken_Some. exists v. auto. }
    congruence.
Qed.

Section MiddlewareProperties.

Variable jwt_verify : string -> string -> Result JWTPayload.
Variable env : Env.

Lemma verifyToken_Ret (tok : string) (p : JWTPayload) :
  jwt_verify tok (secretOf env) = Ret p ->
  verifyToken jwt_verify env tok = Ret (Some p).
Proof. intros H. unfold verifyToken. rewrite H. reflexivity. Qed.

Lemma verifyToken_Throw (tok : string) (e : Error) :
  jwt_verify tok (secretOf env) = Throw e ->
  verifyToken jwt_verify env tok = Ret None.
Proof. intros H. unfold verifyToken. rewrite H. reflexivity. Qed.

Lemma verifyToken_total (tok : string) :
  exists r, verifyToken jwt_verify env tok = Ret r.
Proof.
  unfold verifyToken.
  destruct (jwt_verify tok (secretOf env)); simpl; eauto.
Qed.

(** C3. [protect] answers 401 without calling [next] when the
    Authorization header is absent or lacks the case-sensitive prefix
    [Bearer ], and when the extracted token fails verification; it
    calls [next] only for a header with the prefix whose token verifies,
    and then the request handed on carries the decoded payload. *)
Theorem protect_gate (req : AuthRequest) :
  (authorization req = None ->
   protect jwt_verify env req
   = Ret (Responded
            (failure 401
               "Not authorized. Please login to access this resource.")))
  /\ (forall h, authorization req = Some h ->
        startsWith h "Bearer " = false ->
        protect jwt_verify env req
        = Ret (Responded
                 (failure 401
                    "Not authorized. Please login to access this resource.")))
  /\ (forall h e, authorization req = Some h ->
        startsWith h "Bearer " = true ->
        jwt_verify (substringFrom 7 h) (secretOf env) = Throw e ->
        exists res, protect jwt_verify env req = Ret (Responded res)
                    /\ status res = 401)
  /\ (forall req', protect jwt_verify env req = Ret (CalledNext req') ->
        exists h p, authorization req = Some h
                    /\ startsWith h "Bearer " = true
                    /\ jwt_verify (substringFrom 7 h) (secretOf env) = Ret p
                    /\ req' = setUser req p)
  /\ (forall h p, authorization req = Some h ->
        startsWith h "Bearer " = true ->
        substringFrom 7 h <> "" ->
        jwt_verify (substringFrom 7 h) (secretOf env) = Ret p ->
        protect jwt_verify env req = Ret (CalledNext (setUser req p))).
Proof.
  unfold protect, protectWith. simpl.
  repeat split.
  - intros H. rewrite H. reflexivity.
  - intros h H Hp.
    assert (E : extractToken (authorization req) = None).
    { apply extractToken_None. right. exists h. auto. }
    rewrite E. reflexivity.
  - intros h e H Hp Hv.
    assert (E : extractToken (authorization req) = Some (substringFrom 7 h)).
    { apply extractToken_Some. exists h. auto. }
    rewrite E.
    destruct (nonEmpty (Some (substringFrom 7 h))) as [tok|] eqn:Hn.
    + apply nonEmpty_Some in Hn. destruct Hn as [Hn _]. inversion Hn; subst.
      simpl. rewrite (verifyToken_Throw _ _ Hv). simpl. eauto.
    + simpl. eauto.
  - intros req' H.
    destruct (extractToken (authorization req)) as [tok|] eqn:E;
      [|simpl in H; discriminate].
    apply extractToken_Some in E. destruct E as [h [H1 [H2 H3]]].
    destruct (nonEmpty (Some tok)) as [tok'|] eqn:Hn;
      [|simpl in H; discriminate].
    apply nonEmpty_Some in Hn. destruct Hn as [Hn _]. inversion Hn; subst tok'.
    simpl in H. unfold verifyToken in H.
    destruct (jwt_verify tok (secretOf env)) as [p|e] eqn:Hv;
      simpl in H; [|discriminate].
    inversion H; subst. exists h, p. auto.
  - intros h p H Hp Hne Hv.
    assert (E : extractToken (authorization req) = Some (substringFrom 7 h)).
    { apply extractToken_Some. exists h. auto. }
    rewrite E.
    assert (Hn : nonEmpty (Some (substringFrom 7 h))
                 = Some (substringFrom 7 h)).
    { apply nonEmpty_Some. auto. }
    rewrite Hn. simpl. rewrite (verifyToken_Ret _ _ Hv). reflexivity.
Qed.

End MiddlewareProperties.

(** C4. The guard [authorize(...roles)] answers 401 when the request
    carries no identity, 403 with a message that lists the allowed roles
    when the identity's role is not one of them, and calls [next] on the
    unchanged request otherwise. It is a pure function of the roles and
    the request: two requests with the same identity get the same
    decision. *)
Theorem authorize_guard (roles : list UserRole) (req : AuthRequest) :
  (user req = None ->
   authorize roles req = Responded (failure 401 "Not authenticated"))
  /\ (forall u, user req = Some u -> ~ In (Payload.role u) roles ->
        authorize roles req
        = Responded
            (failure 403
               ("Access denied. This resource is only accessible to "
                  ++ join ", " (map roleValue roles) ++ " users.")))
  /\ (forall u, user req = Some u -> In (Payload.role u) roles ->
        authorize roles req = CalledNext req)
  /\ (forall req2, user req2 = user req ->
        match authorize roles req, authorize roles req2 with
        | Responded r1, Responded r2 => r1 = r2
        | CalledNext n1, CalledNext n2 => n1 = req /\ n2 = req2
        | _, _ => False
        end).
Proof.
  unfold authorize. repeat split.
  - intros H. rewrite H. reflexivity.
  - intros u H Hn. rewrite H.
    destruct (includes roles (Payload.role u)) eqn:E; [|reflexivity].
    apply includes_In in E. contradiction.
  - intros u H Hin. rewrite H.
    apply includes_In in Hin. rewrite Hin. reflexivity.
  - intros req2 H. rewrite H.
    destruct (user req) as [u|]; [|reflexivity].
    destruct (includes roles (Payload.role u)); simpl; auto.
Qed.

(** C5. Whatever token extraction and verification do, [protect] returns
    normally, and a response it sends has status 401 (so never 500): an
    exception thrown by either step is caught and answered with 401
    "Authentication failed". *)
Theorem protect_catches_all
    (extract : option string -> Result (option string))
    (verify : string -> Result (option JWTPayload))
    (req : AuthRequest) :
  (exists o, protectWith extract verify req = Ret o
             /\ match o with
                | Responded res => status res = 401 /\ status res <> 500
                | CalledNext _ => True
                end)
  /\ (forall e, extract (authorization req) = Throw e ->
        protectWith extract verify req
        = Ret (Responded (failure 401 "Authentication failed")))
  /\ (forall tok e, extract (authorization req) = Ret (Some tok) ->
        tok <> "" -> verify tok = Throw e ->
        protectWith extract verify req
        = Ret (Responded (failure 401 "Authentication failed")))
  /\ (forall jwt_verify env,
        exists o, protect jwt_verify env req = Ret o
                  /\ match o with
                     | Responded res => status res = 401
                     | CalledNext _ => True
                     end).
Proof.
  assert (G : forall ex ve,
             exists o, protectWith ex ve req = Ret o
                       /\ match o with
                          | Responded res => status res = 401 /\ status res <> 500
                          | CalledNext _ => True
                          end).
  { intros ex ve. unfold protectWith.
    destruct (ex (authorization req)) as [token|e]; simpl;
      [destruct (nonEmpty token) as [tok|]; simpl;
       [destruct (ve tok) as [[p|]|e]; simpl|]|];
      (eexists; split; [reflexivity|]); simpl;
      first [exact I | split; [reflexivity | discriminate]]. }
  repeat split.
  - apply G.
  - intros e H. unfold protectWith. rewrite H. reflexivity.
  - intros tok e H Hne Hv. unfold protectWith. rewrite H.
    assert (Hn : nonEmpty (Some tok) = Some tok) by (apply nonEmpty_Some; auto).
    unfold rbind. rewrite Hn. rewrite Hv. reflexivity.
  - intros jwt_verify env. unfold protect.
    destruct (G (fun h => Ret (extractToken h)) (verifyToken jwt_verify env))
      as [o [H1 H2]].
    exists o. split; [exact H1|]. destruct o; [apply H2 | exact I].
Qed.

(** C6. Whatever token extraction and verification do, [optionalAuth]
    sends no response and calls [next]: with the decoded payload attached
    when extraction yields a non-empty token and verification yields a
    payload, and otherwise (no token, invalid token, or an exception) on
    the request as it came, so that an unset identity stays unset. *)
Theorem optionalAuth_never_rejects
    (extract : option string -> Result (option string))
    (verify : string -> Result (option JWTPayload))
    (req : AuthRequest) :
  (exists req',
     optionalAuthWith extract verify req = Ret (CalledNext req')
     /\ ((exists tok p, extract (authorization req) = Ret (Some tok)
                        /\ tok <> "" /\ verify tok = Ret (Some p)
                        /\ req' = setUser req p)
         \/ (req' = req
             /\ ~ (exists tok p, extract (authorization req) = Ret (Some tok)
                                 /\ tok <> "" /\ verify tok = Ret (Some p)))))
  /\ (forall jwt_verify env,
        (authorization req = None ->
         optionalAuth jwt_verify env req = Ret (CalledNext req))
        /\ (forall h, authorization req = Some h ->
              startsWith h "Bearer " = false ->
              optionalAuth jwt_verify env req = Ret (CalledNext req))
        /\ (forall h e, authorization req = Some h ->
              jwt_verify (substringFrom 7 h) (secretOf env) = Throw e ->
              optionalAuth jwt_verify env req = Ret (CalledNext req))
        /\ (forall h p, authorization req = Some h ->
              startsWith h "Bearer " = true ->
              substringFrom 7 h <> "" ->
              jwt_verify (substringFrom 7 h) (secretOf env) = Ret p ->
              optionalAuth jwt_verify env req
              = Ret (CalledNext (setUser req p)))).
Proof.
  split.
  - unfold optionalAuthWith.
    destruct (extract (authorization req)) as [token|e] eqn:He; simpl.
    + destruct (nonEmpty token) as [tok|] eqn:Hn; simpl.
      * apply nonEmpty_Some in Hn. destruct Hn as [Ht Hne]. subst token.
        destruct (verify tok) as [[p|]|e] eqn:Hv; simpl.
        -- exists (setUser req p). split; [reflexivity|]. left.
           exists tok, p. auto.
        -- exists req. split; [reflexivity|]. right. split; [reflexivity|].
           intros [t [p [H1 [_ H3]]]]. inversion H1; subst. congruence.
        -- exists req. split; [reflexivity|]. right. split; [reflexivity|].
           intros [t [p [H1 [_ H3]]]]. inversion H1; subst. congruence.
      * exists req. split; [reflexivity|]. right. split; [reflexivity|].
        intros [t [p [H1 [H2 _]]]]. inversion H1; subst.
        apply nonEmpty_None in Hn. destruct Hn as [Hn|Hn];
          [discriminate | inversion Hn; contradiction].
    + exists req. split; [reflexivity|]. right. split; [reflexivity|].
      intros [t [p [H1 _]]]. discriminate.
  - intros jwt_verify env. unfold optionalAuth, optionalAuthWith, rbind.
    cbv beta iota. repeat split.
    + intros H. rewrite H. reflexivity.
    + intros h H Hp.
      assert (E : extractToken (authorization req) = None).
      { apply extractToken_None. right. exists h. auto. }
      rewrite E. reflexivity.
    + intros h e H Hv.
      destruct (startsWith h "Bearer ") eqn:Hp.
      * assert (E : extractToken (authorization req)
                    = Some (substringFrom 7 h)).
        { apply extractToken_Some. exists h. auto. }
        rewrite E.
        destruct (nonEmpty (Some (substringFrom 7 h))) as [tok|] eqn:Hn;
          [|reflexivity].
        apply nonEmpty_Some in Hn. destruct Hn as [Hn _].
        assert (Ht : tok = substringFrom 7 h) by congruence.
        rewrite Ht. rewrite (verifyToken_Throw _ _ _ _ Hv). reflexivity.
      * assert (E : extractToken (authorization req) = None).
        { apply extractToken_None. right. exists h. auto. }
        rewrite E. reflexivity.
    + intros h p H Hp Hne Hv.
      assert (E : extractToken (authorization req) = Some (substringFrom 7 h)).
      { apply extractToken_Some. exists h. auto. }
      rewrite E.
      assert (Hn : nonEmpty (Some (substringFrom 7 h))
                   = Some (substringFrom 7 h)).
      { apply nonEmpty_Some. auto. }
      rewrite Hn. rewrite (verifyToken_Ret _ _ _ _ Hv). reflexivity.
Qed.

(** ** The collection *)

Lemma find_None_existsb {A} (f : A -> bool) (l : list A) :
  find f l = None -> existsb f l = false.
Proof.
  induction l as [|x l IH]; simpl; [reflexivity|].
  destruct (f x); [discriminate | exact IH].
Qed.

Lemma lookupByEmail_In (e : string) (st : Store) (u : IUser) :
  In u st -> email u = castEmail e -> exists v, lookupByEmail e st = Some v.
Proof.
  intros Hin He. unfold lookupByEmail.
  destruct (find (fun u0 => String.eqb (email u0) (castEmail e)) st) eqn:F.
  - eauto.
  - exfalso. apply (find_none _ _ F) in Hin. simpl in Hin.
    rewrite He, String.eqb_refl in Hin. discriminate.
Qed.

Lemma no_duplicate (i e : string) (st : Store) :
  lookupByEmail e st = None -> lookupById i st = None ->
  existsb (fun v => String.eqb (_id v) i
                    || String.eqb (email v) (castEmail e)) st = false.
Proof.
  unfold lookupByEmail, lookupById. intros He Hi.
  induction st as [|x st IH]; simpl in *; [reflexivity|].
  destruct (String.eqb (email x) (castEmail e)) eqn:E1; [discriminate|].
  destruct (String.eqb (_id x) i) eqn:E2; [discriminate|].
  simpl. apply IH; assumption.
Qed.

Lemma replaceById_found (i : string) (f : IUser -> IUser) (st : Store)
    (u : IUser) :
  lookupById i st = Some u ->
  exists st', replaceById i f st = Some st'
              /\ replaceById i (fun _ => f u) st = Some st'
              /\ (_id (f u) = _id u -> lookupById i st' = Some (f u)).
Proof.
  unfold lookupById. induction st as [|x st IH]; simpl; [discriminate|].
  destruct (String.eqb (_id x) i) eqn:E.
  - intros H. injection H as H. subst x. exists (f u :: st).
    repeat split. intros Hid. simpl. rewrite Hid, E. reflexivity.
  - intros H. destruct (IH H) as [st' [H1 [H2 H3]]].
    exists (x :: st'). rewrite H1, H2. simpl. rewrite E. auto.
Qed.

Lemma replaceById_frame {B} (g : IUser -> B) (i : string)
    (f : IUser -> IUser) (st st' : Store) :
  (forall x, g (f x) = g x) ->
  replaceById i f st = Some st' -> map g st' = map g st.
Proof.
  intros Hf. revert st'. induction st as [|x st IH]; simpl; [discriminate|].
  intros st'. destruct (String.eqb (_id x) i).
  - intros H. injection H as H. subst st'. simpl. rewrite Hf. reflexivity.
  - destruct (replaceById i f st) as [r|]; simpl; [|discriminate].
    intros H. injection H as H. subst st'. simpl. rewrite (IH r eq_refl).
    reflexivity.
Qed.

Lemma castRole_roleValue (r : UserRole) : castRole (roleValue r) = Some r.
Proof. destruct r; reflexivity. Qed.


(** ** Saving documents *)

Lemma validate_new (u : IUser) (paths : list Path) (pw : string) :
  firstName u <> "" -> String.length (firstName u) <= 50 ->
  lastName u <> "" -> String.length (lastName u) <= 50 ->
  test emailPattern (email u) = true ->
  password u = Some pw -> 6 <= String.length pw ->
  bio u = None ->
  validate (mkDoc u true paths) = Ret tt.
Proof.
  intros F1 F2 L1 L2 E P1 P2 B.
  unfold validate, validationErrors, pathsToValidate. simpl.
  apply String.eqb_neq in F1. apply String.eqb_neq in L1.
  rewrite F1, L1, E, P1, B. simpl.
  assert (Ee : String.eqb (email u) "" = false).
  { destruct (email u); [discriminate E | reflexivity]. }
  assert (Pe : String.eqb pw "" = false).
  { destruct pw; [simpl in P2; lia | reflexivity]. }
  rewrite Ee, Pe.
  assert (F3 : (50 <? String.length (firstName u))%nat = false)
    by (apply Nat.ltb_ge; exact F2).
  assert (L3 : (50 <? String.length (lastName u))%nat = false)
    by (apply Nat.ltb_ge; exact L2).
  assert (P3 : (String.length pw <? 6)%nat = false)
    by (apply Nat.ltb_ge; exact P2).
  rewrite F3, L3, P3. reflexivity.
Qed.

Section HandlerLemmas.

Variable jwt_sign : JWTPayload -> string -> string -> Result string.
Variable jwt_verify : string -> string -> Result JWTPayload.
Variable bcrypt_hash : string -> string -> string.
Variable bcrypt_compare : string -> string -> bool.
Variable env : Env.

Lemma create_cases (w : World) (fn ln e pw r : string) (st : Store) :
  create bcrypt_hash w fn ln e pw r st
  = match castRole r with
    | None =>
        (Throw
           (ValidationError
              ("User validation failed: "
                 ++ join ", "
                      (validationErrors (newDocument w fn ln e pw STUDENT)
                         ++ [roleError r])%list)), st)
    | Some r' =>
        match validate (newDocument w fn ln e pw r') with
        | Throw err => (Throw err, st)
        | Ret _ =>
            if existsb
                 (fun v => String.eqb (_id v) (oid w)
                           || String.eqb (email v) (castEmail e)) st
            then (Throw (DuplicateKeyError
                           "E11000 duplicate key error collection: users"),
                  st)
            else (Ret (mkDoc (createdUser bcrypt_hash w fn ln e pw r')
                         false []),
                  (st ++ [createdUser bcrypt_hash w fn ln e pw r'])%list)
        end
    end.
Proof.
  unfold create. destruct (castRole r) as [r'|]; [|reflexivity].
  unfold save, mbind, lift.
  destruct (validate (newDocument w fn ln e pw r')) as [[]|err];
    [|reflexivity].
  simpl. unfold insertOne. simpl.
  destruct (existsb _ st); reflexivity.
Qed.

Lemma register_unfold (w : World) (req : AuthRequest) (st : Store) :
  register jwt_sign bcrypt_hash env w req st
  = match nonEmpty (b_firstName (body req)),
          nonEmpty (b_lastName (body req)),
          nonEmpty (b_email (body req)),
          nonEmpty (b_password (body req)) with
    | Some fn, Some ln, Some e, Some pw =>
        match lookupByEmail e st with
        | Some _ =>
            (Ret (failure 400 "User with this email already exists"), st)
        | None =>
            match create bcrypt_hash w fn ln e pw
                    (orElse (b_role (body req)) "student") st with
            | (Ret u, st') =>
                match getSignedJwtToken jwt_sign env (doc u) with
                | Ret token =>
                    (Ret (mkResponse 201 (registered (doc u) token)), st')
                | Throw err =>
                    (Ret (serverError "Error registering user" err), st')
                end
            | (Throw err, st') =>
                (Ret (serverError "Error registering user" err), st')
            end
        end
    | _, _, _, _ =>
        (Ret (failure 400 "Please provide all required fields"), st)
    end.
Proof.
  unfold register, mtry.
  destruct (nonEmpty (b_firstName (body req))); [|reflexivity].
  destruct (nonEmpty (b_lastName (body req))); [|reflexivity].
  destruct (nonEmpty (b_email (body req))) as [e|]; [|reflexivity].
  destruct (nonEmpty (b_password (body req))); [|reflexivity].
  unfold mbind at 1, findOne.
  destruct (lookupByEmail e st); simpl; [reflexivity|].
  unfold mbind at 1.
  destruct (create bcrypt_hash w s s0 e s1 _ st) as [[u|err] st'];
    [|reflexivity].
  unfold mbind, lift, mret.
  destruct (getSignedJwtToken jwt_sign env (doc u)); reflexivity.
Qed.

Lemma validate_newDocument (w : World) (fn ln e pw : string) (r : UserRole) :
  validNewUser fn ln e pw -> validate (newDocument w fn ln e pw r) = Ret tt.
Proof.
  intros [F1 [F2 [L1 [L2 [E P]]]]].
  apply (validate_new _ _ pw); auto.
Qed.

(** A registration with valid inputs, an email no stored document has
    and a new ObjectId stores the new document and answers 201 with the
    token [jwt.sign] returns. *)
Lemma register_created (w : World) (req : AuthRequest) (st : Store)
    (fn ln e pw t : string) (r : UserRole) :
  nonEmpty (b_firstName (body req)) = Some fn ->
  nonEmpty (b_lastName (body req)) = Some ln ->
  nonEmpty (b_email (body req)) = Some e ->
  nonEmpty (b_password (body req)) = Some pw ->
  castRole (orElse (b_role (body req)) "student") = Some r ->
  validNewUser fn ln e pw ->
  lookupByEmail e st = None ->
  lookupById (oid w) st = None ->
  jwt_sign (Payload.mk (oid w) r (castEmail e))
    (secretOf env) (expiresInOf env) = Ret t ->
  register jwt_sign bcrypt_hash env w req st
  = (Ret (mkResponse 201
            (registered (createdUser bcrypt_hash w fn ln e pw r) t)),
     (st ++ [createdUser bcrypt_hash w fn ln e pw r])%list).
Proof.
  intros H1 H2 H3 H4 Hr Hv He Hi Ht.
  rewrite register_unfold, H1, H2, H3, H4, He, create_cases, Hr.
  rewrite (validate_newDocument w fn ln e pw r Hv).
  rewrite (no_duplicate (oid w) e st He Hi).
  unfold getSignedJwtToken. simpl. rewrite Ht. reflexivity.
Qed.

(** Every way a registration can end. *)
Lemma register_outcomes (w : World) (req : AuthRequest) (st st' : Store)
    (r : Result Response) :
  register jwt_sign bcrypt_hash env w req st = (r, st') ->
  (exists res, r = Ret res /\ st' = st
               /\ (status res = 400 \/ status res = 500))
  \/ (exists fn ln e pw ro,
        nonEmpty (b_firstName (body req)) = Some fn
        /\ nonEmpty (b_lastName (body req)) = Some ln
        /\ nonEmpty (b_email (body req)) = Some e
        /\ nonEmpty (b_password (body req)) = Some pw
        /\ castRole (orElse (b_role (body req)) "student") = Some ro
        /\ lookupByEmail e st = None
        /\ st' = (st ++ [createdUser bcrypt_hash w fn ln e pw ro])%list
        /\ ((exists t,
               jwt_sign (Payload.mk (oid w) ro (castEmail e))
                 (secretOf env) (expiresInOf env) = Ret t
               /\ r = Ret (mkResponse 201
                             (registered
                                (createdUser bcrypt_hash w fn ln e pw ro) t)))
            \/ (exists err,
                  jwt_sign (Payload.mk (oid w) ro (castEmail e))
                    (secretOf env) (expiresInOf env) = Throw err
                  /\ r = Ret (serverError "Error registering user" err)))).
Proof.
  rewrite register_unfold.
  destruct (nonEmpty (b_firstName (body req))) as [fn|];
    [|intros H; injection H as <- <-; left; eexists; simpl; eauto].
  destruct (nonEmpty (b_lastName (body req))) as [ln|];
    [|intros H; injection H as <- <-; left; eexists; simpl; eauto].
  destruct (nonEmpty (b_email (body req))) as [e|];
    [|intros H; injection H as <- <-; left; eexists; simpl; eauto].
  destruct (nonEmpty (b_password (body req))) as [pw|];
    [|intros H; injection H as <- <-; left; eexists; simpl; eauto].
  destruct (lookupByEmail e st) eqn:He;
    [intros H; injection H as <- <-; left; eexists; simpl; eauto|].
  rewrite create_cases.
  destruct (castRole (orElse (b_role (body req)) "student")) as [ro|] eqn:Hr;
    [|intros H; injection H as <- <-; left; eexists; simpl; eauto].
  destruct (validate (newDocument w fn ln e pw ro)) as [[]|err];
    [|intros H; injection H as <- <-; left; eexists; simpl; eauto].
  destruct (existsb _ st);
    [intros H; injection H as <- <-; left; eexists; simpl; eauto|].
  unfold getSignedJwtToken. simpl.
  destruct (jwt_sign (Payload.mk (oid w) ro (castEmail e))
              (secretOf env) (expiresInOf env)) as [t|err] eqn:Ht;
    intros H; injection H as <- <-; right;
    exists fn, ln, e, pw, ro; repeat split; eauto.
Qed.

End HandlerLemmas.

Section HandlerProperties.

Variable jwt_sign : JWTPayload -> string -> string -> Result string.
Variable jwt_verify : string -> string -> Result JWTPayload.
Variable bcrypt_hash : string -> string -> string.
Variable bcrypt_compare : string -> string -> bool.
Variable env : Env.

(** C8. A registration whose email a stored document already has is
    answered 400 and the collection is left as it was. *)
Theorem register_duplicate_email (w : World) (req : AuthRequest)
    (st : Store) (e : string) (u : IUser) :
  b_email (body req) = Some e ->
  In u st ->
  email u = castEmail e ->
  exists res,
    register jwt_sign bcrypt_hash env w req st = (Ret res, st)
    /\ status res = 400.
Proof.
  intros Hb Hin He. rewrite register_unfold.
  destruct (nonEmpty (b_firstName (body req))); [|simpl; eauto].
  destruct (nonEmpty (b_lastName (body req))); [|simpl; eauto].
  destruct (nonEmpty (b_email (body req))) as [e'|] eqn:Hn; [|simpl; eauto].
  destruct (nonEmpty (b_password (body req))); [|simpl; eauto].
  apply nonEmpty_Some in Hn. destruct Hn as [Hn _].
  assert (e' = e) by congruence. subst e'.
  destruct (lookupByEmail_In e st u Hin He) as [v Hv].
  rewrite Hv. simpl. eauto.
Qed.

(** C9. A registration with valid inputs, an email no stored document
    has and a new ObjectId is answered 201; the token in the response,
    verified with the secret it was signed with, decodes to a payload whose
    id is the id of the stored document; and the response body has no
    [password] property and is the same whatever the password, the salt
    and the hash function are. *)
Theorem register_token_subject (w : World) (req : AuthRequest) (st : Store)
    (fn ln e pw : string) (r : UserRole) :
  nonEmpty (b_firstName (body req)) = Some fn ->
  nonEmpty (b_lastName (body req)) = Some ln ->
  nonEmpty (b_email (body req)) = Some e ->
  nonEmpty (b_password (body req)) = Some pw ->
  castRole (orElse (b_role (body req)) "student") = Some r ->
  validNewUser fn ln e pw ->
  lookupByEmail e st = None ->
  lookupById (oid w) st = None ->
  (forall p, exists t,
      jwt_sign p (secretOf env) (expiresInOf env) = Ret t
      /\ jwt_verify t (secretOf env) = Ret p) ->
  exists u t p,
    register jwt_sign bcrypt_hash env w req st
    = (Ret (mkResponse 201 (registered u t)), (st ++ [u])%list)
    /\ _id u = oid w
    /\ verifyToken jwt_verify env t = Ret (Some p)
    /\ Payload.id p = _id u
    /\ hasKey "password" (registered u t) = false
    /\ (forall (hash' : string -> string -> string) (salt' pw' : string),
          6 <= String.length pw' ->
          fst (register jwt_sign hash' env (mkWorld (oid w) salt' (now w))
                 (withBodyPassword pw' req) st)
          = Ret (mkResponse 201 (registered u t))).
Proof.
  intros H1 H2 H3 H4 Hr Hv He Hi Hcodec.
  destruct (Hcodec (Payload.mk (oid w) r (castEmail e))) as [t [Hs Hd]].
  exists (createdUser bcrypt_hash w fn ln e pw r), t,
    (Payload.mk (oid w) r (castEmail e)).
  split; [|split; [|split; [|split; [|split]]]].
  - apply register_created; assumption.
  - reflexivity.
  - apply verifyToken_Ret. exact Hd.
  - reflexivity.
  - reflexivity.
  - intros hash' salt' pw' Hlen.
    assert (Hpw : nonEmpty (Some pw') = Some pw').
    { apply nonEmpty_Some. split; [reflexivity|].
      intros ->. simpl in Hlen. lia. }
    assert (Hv' : validNewUser fn ln e pw').
    { destruct Hv as [F1 [F2 [L1 [L2 [E _]]]]]. repeat split; auto. }
    rewrite register_unfold. unfold withBodyPassword.
    cbn [body b_firstName b_lastName b_email b_password b_role].
    rewrite H1, H2, H3, Hpw, He.
    rewrite create_cases, Hr.
    rewrite (validate_newDocument (mkWorld (oid w) salt' (now w))
               fn ln e pw' r Hv').
    simpl. rewrite (no_duplicate (oid w) e st He Hi).
    unfold getSignedJwtToken. simpl. rewrite Hs. reflexivity.
Qed.


Lemma login_unfold (req : AuthRequest) (st : Store) :
  login jwt_sign bcrypt_compare env req st
  = match nonEmpty (b_email (body req)),
          nonEmpty (b_password (body req)) with
    | Some e, Some pw =>
        match lookupByEmail e st with
        | None => (Ret (failure 401 "Invalid credentials"), st)
        | Some u =>
            match comparePassword bcrypt_compare u (JStr pw) with
            | Ret false => (Ret (failure 401 "Invalid credentials"), st)
            | Ret true =>
                match getSignedJwtToken jwt_sign env u with
                | Ret token =>
                    (Ret (mkResponse 200
                            (JObj [("success", JBool true);
                                   ("message", JStr "Login successful");
                                   ("data",
                                    JObj [("user", loginView u);
                                          ("token", JStr token)])])), st)
                | Throw err => (Ret (serverError "Error logging in" err), st)
                end
            | Throw err => (Ret (serverError "Error logging in" err), st)
            end
        end
    | _, _ => (Ret (failure 400 "Please provide email and password"), st)
    end.
Proof.
  unfold login, mtry.
  destruct (nonEmpty (b_email (body req))) as [e|]; [|reflexivity].
  destruct (nonEmpty (b_password (body req))) as [pw|]; [|reflexivity].
  unfold mbind at 1, findOne.
  destruct (lookupByEmail e st) as [u|]; [|reflexivity].
  cbn [option_map hydrate doc]. unfold mbind, lift, mret.
  destruct (comparePassword bcrypt_compare u (JStr pw)) as [[|]|err];
    [|reflexivity|reflexivity].
  cbn [negb]. destruct (getSignedJwtToken jwt_sign env u); reflexivity.
Qed.

End HandlerProperties.

(** ** Login on any parsed body *)

Lemma truthyJson_string (v : option string) :
  truthyJson (option_map JStr v) = truthy v.
Proof.
  destruct v; reflexivity.
Qed.

Lemma nonEmpty_truthy (v : option string) :
  nonEmpty v = if truthy v then v else None.
Proof.
  destruct v as [s|]; [|reflexivity]. simpl.
  destruct (String.eqb s ""); reflexivity.
Qed.

Section LoginProperties.

Variable jwt_sign : JWTPayload -> string -> string -> Result string.
Variable bcrypt_compare : string -> string -> bool.
Variable env : Env.
Variable mongoFilter : Json -> Result (string -> bool).

Lemma lookupWhere_string (e : string) (st : Store) :
  lookupWhere mongoFilter (JStr e) st = Ret (lookupByEmail e st).
Proof.
  reflexivity.
Qed.

Lemma loginJson_unfold (vEmail vPassword : option Json) (st : Store) :
  loginJson jwt_sign bcrypt_compare env mongoFilter vEmail vPassword st
  = if negb (truthyJson vEmail) || negb (truthyJson vPassword) then
      (Ret (failure 400 "Please provide email and password"), st)
    else
      match vEmail, vPassword with
      | Some e, Some pw =>
          match lookupWhere mongoFilter e st with
          | Throw err => (Ret (serverError "Error logging in" err), st)
          | Ret None => (Ret (failure 401 "Invalid credentials"), st)
          | Ret (Some u) =>
              match comparePassword bcrypt_compare u pw with
              | Ret false => (Ret (failure 401 "Invalid credentials"), st)
              | Ret true =>
                  match getSignedJwtToken jwt_sign env u with
                  | Ret token => (Ret (mkResponse 200 (loggedIn u token)), st)
                  | Throw err =>
                      (Ret (serverError "Error logging in" err), st)
                  end
              | Throw err => (Ret (serverError "Error logging in" err), st)
              end
          end
      | _, _ => (Ret (failure 400 "Please provide email and password"), st)
      end.
Proof.
  unfold loginJson, mtry.
  destruct (negb (truthyJson vEmail) || negb (truthyJson vPassword));
    [reflexivity|].
  destruct vEmail as [e|]; [|reflexivity].
  destruct vPassword as [pw|]; [|reflexivity].
  unfold mbind at 1, findOneWhere.
  destruct (lookupWhere mongoFilter e st) as [[u|]|err];
    [|reflexivity|reflexivity].
  cbn [rbind option_map hydrate doc]. unfold mbind, lift, mret.
  destruct (comparePassword bcrypt_compare u pw) as [[|]|err];
    [|reflexivity|reflexivity].
  cbn [negb]. destruct (getSignedJwtToken jwt_sign env u); reflexivity.
Qed.

(** [login] is [loginJson] on a body whose email and password are strings
    or absent. *)
Lemma loginJson_strings (req : AuthRequest) (st : Store) :
  loginJson jwt_sign bcrypt_compare env mongoFilter
    (option_map JStr (b_email (body req)))
    (option_map JStr (b_password (body req))) st
  = login jwt_sign bcrypt_compare env req st.
Proof.
  rewrite loginJson_unfold, login_unfold, !truthyJson_string,
    !nonEmpty_truthy.
  destruct (b_email (body req)) as [e|]; [|reflexivity].
  destruct (truthy (Some e)); [|reflexivity].
  destruct (b_password (body req)) as [pw|]; [|reflexivity].
  destruct (truthy (Some pw)); reflexivity.
Qed.

(** The store is only read. *)
Lemma loginJson_store (vEmail vPassword : option Json) (st : Store) :
  snd (loginJson jwt_sign bcrypt_compare env mongoFilter vEmail vPassword st)
  = st.
Proof.
  rewrite loginJson_unfold.
  destruct (negb (truthyJson vEmail) || negb (truthyJson vPassword));
    [reflexivity|].
  destruct vEmail as [e|]; [|reflexivity].
  destruct vPassword as [pw|]; [|reflexivity].
  destruct (lookupWhere mongoFilter e st) as [[u|]|err]; try reflexivity.
  destruct (comparePassword bcrypt_compare u pw) as [[|]|err];
    try reflexivity.
  destruct (getSignedJwtToken jwt_sign env u); reflexivity.
Qed.


End LoginProperties.

(** ** Profile updates *)

Lemma optString_eqb_eq (a b : option string) :
  optString_eqb a b = true -> a = b.
Proof.
  destruct a, b; simpl; try discriminate; try reflexivity.
  intros H. apply String.eqb_eq in H. congruence.
Qed.

Lemma isModified_settable (p : Path) (d : Document) :
  forallb settable (modifiedPaths d) = true -> settable p = false ->
  isModified p d = false.
Proof.
  unfold isModified. intros H Hp.
  induction (modifiedPaths d) as [|q l IH]; simpl in *; [reflexivity|].
  apply andb_true_iff in H. destruct H as [Hq Hl].
  rewrite (IH Hl), orb_false_r.
  destruct p, q; simpl in *; try discriminate; reflexivity.
Qed.

Lemma tracks_hydrate (u : IUser) : Tracks u (hydrate false u).
Proof. unfold Tracks, hydrate. simpl. repeat split. Qed.

Ltac tracks_setter :=
  unfold Tracks, markModified, isModified; simpl;
  intros (H1 & H2 & H3 & H4 & H5 & H6 & H7 & H8);
  repeat match goal with
         | |- context [if ?c then _ else _] => destruct c eqn:?
         end;
  simpl in *; repeat split; auto; try discriminate;
  try (intros; congruence).

Lemma tracks_setFirstName (u : IUser) (v : string) (d : Document) :
  Tracks u d -> Tracks u (setFirstName v d).
Proof. unfold setFirstName. tracks_setter. Qed.

Lemma tracks_setLastName (u : IUser) (v : string) (d : Document) :
  Tracks u d -> Tracks u (setLastName v d).
Proof. unfold setLastName. tracks_setter. Qed.

Lemma tracks_setBio (u : IUser) (v : string) (d : Document) :
  Tracks u d -> Tracks u (setBio v d).
Proof. unfold setBio. tracks_setter. Qed.

Lemma tracks_setAvatar (u : IUser) (v : string) (d : Document) :
  Tracks u d -> Tracks u (setAvatar v d).
Proof. unfold setAvatar. tracks_setter. Qed.

Lemma tracks_applyProfile (b : Body) (u : IUser) (d : Document) :
  Tracks u d -> Tracks u (applyProfile b d).
Proof.
  intros H. unfold applyProfile.
  destruct (nonEmpty (b_avatar b)); [apply tracks_setAvatar|];
    (destruct (b_bio b); [apply tracks_setBio|]);
    (destruct (nonEmpty (b_lastName b)); [apply tracks_setLastName|]);
    (destruct (nonEmpty (b_firstName b)); [apply tracks_setFirstName|]);
    exact H.
Qed.

Lemma setFirstName_doc (v : string) (d : Document) :
  doc (setFirstName v d) = withFirstName (trim v) (doc d).
Proof.
  unfold setFirstName, markModified.
  destruct (String.eqb (trim v) (firstName (doc d))) eqn:E.
  - apply String.eqb_eq in E. rewrite E. destruct (doc d); reflexivity.
  - destruct (isModified P_firstName _); reflexivity.
Qed.

Lemma setLastName_doc (v : string) (d : Document) :
  doc (setLastName v d) = withLastName (trim v) (doc d).
Proof.
  unfold setLastName, markModified.
  destruct (String.eqb (trim v) (lastName (doc d))) eqn:E.
  - apply String.eqb_eq in E. rewrite E. destruct (doc d); reflexivity.
  - destruct (isModified P_lastName _); reflexivity.
Qed.

Lemma setBio_doc (v : string) (d : Document) :
  doc (setBio v d) = withBio (Some v) (doc d).
Proof.
  unfold setBio, markModified.
  destruct (optString_eqb (Some v) (bio (doc d))) eqn:E.
  - apply optString_eqb_eq in E. rewrite E. destruct (doc d); reflexivity.
  - destruct (isModified P_bio _); reflexivity.
Qed.

Lemma setAvatar_doc (v : string) (d : Document) :
  doc (setAvatar v d) = withAvatar v (doc d).
Proof.
  unfold setAvatar, markModified.
  destruct (String.eqb v (avatar (doc d))) eqn:E.
  - apply String.eqb_eq in E. rewrite E. destruct (doc d); reflexivity.
  - destruct (isModified P_avatar _); reflexivity.
Qed.

(** The values of the four profile fields after the assignments. *)
Lemma applyProfile_values (b : Body) (d : Document) :
  firstName (doc (applyProfile b d))
  = match nonEmpty (b_firstName b) with
    | Some v => trim v
    | None => firstName (doc d)
    end
  /\ lastName (doc (applyProfile b d))
     = match nonEmpty (b_lastName b) with
       | Some v => trim v
       | None => lastName (doc d)
       end
  /\ bio (doc (applyProfile b d))
     = match b_bio b with
       | Some v => Some v
       | None => bio (doc d)
       end
  /\ avatar (doc (applyProfile b d))
     = match nonEmpty (b_avatar b) with
       | Some v => v
       | None => avatar (doc d)
       end.
Proof.
  unfold applyProfile.
  destruct (nonEmpty (b_firstName b)), (nonEmpty (b_lastName b)),
    (b_bio b), (nonEmpty (b_avatar b));
    rewrite ?setAvatar_doc, ?setBio_doc, ?setLastName_doc, ?setFirstName_doc;
    repeat split.
Qed.

Lemma applyUpdate_get {B} (g : IUser -> B) (P : Path) (src : IUser)
    (paths : list Path) (dst : IUser) :
  (forall v x, g (withUpdatedAt v x) = g x) ->
  (forall p x, Path_eqb P p = false -> g (copyPath src p x) = g x) ->
  (forall x, g (copyPath src P x) = g src) ->
  g (applyUpdate src paths dst)
  = if existsb (Path_eqb P) paths then g src else g dst.
Proof.
  intros Hu Hother Hsame.
  assert (F : g (fold_right (copyPath src) dst paths)
              = if existsb (Path_eqb P) paths then g src else g dst).
  { induction paths as [|q l IH]; simpl; [reflexivity|].
    destruct (Path_eqb P q) eqn:E; simpl.
    - assert (q = P) by (destruct P, q; simpl in E; congruence).
      subst q. apply Hsame.
    - rewrite (Hother q _ E). exact IH. }
  unfold applyUpdate. destruct paths; [reflexivity|].
  rewrite Hu. exact F.
Qed.

Lemma applyUpdate_frame {B} (g : IUser -> B) (src : IUser)
    (paths : list Path) (dst : IUser) :
  (forall v x, g (withUpdatedAt v x) = g x) ->
  (forall p x, settable p = true -> g (copyPath src p x) = g x) ->
  forallb settable paths = true ->
  g (applyUpdate src paths dst) = g dst.
Proof.
  intros Hu Hcopy Hs.
  assert (F : g (fold_right (copyPath src) dst paths) = g dst).
  { induction paths as [|q l IH]; simpl in *; [reflexivity|].
    apply andb_true_iff in Hs. destruct Hs as [Hq Hl].
    rewrite (Hcopy q _ Hq). exact (IH Hl). }
  unfold applyUpdate. destruct paths; [reflexivity|].
  rewrite Hu. exact F.
Qed.

Lemma timestamps_paths (w : World) (d : Document) :
  isNew d = false ->
  modifiedPaths (timestamps w d) = modifiedPaths d
  /\ isNew (timestamps w d) = false.
Proof.
  intros Hn. unfold timestamps. rewrite Hn.
  destruct (modifiedPaths d) eqn:E; simpl; auto.
Qed.

Lemma timestamps_get {B} (g : IUser -> B) (w : World) (d : Document) :
  (forall v x, g (withUpdatedAt v x) = g x) ->
  isNew d = false ->
  g (doc (timestamps w d)) = g (doc d).
Proof.
  intros Hu Hn. unfold timestamps. rewrite Hn.
  destruct (modifiedPaths d); simpl; rewrite ?Hu; reflexivity.
Qed.

(** One field of the stored document after the update: the document's
    value where the path is marked, the stored value elsewhere, which the
    document still has. *)
Ltac stored_field g P T :=
  rewrite (applyUpdate_get g P);
  [ destruct (existsb (Path_eqb P) _) eqn:?E;
    [ apply timestamps_get; [reflexivity | assumption]
    | symmetry; apply T; first [exact E | reflexivity] ]
  | reflexivity
  | let q := fresh "q" in
    let Hq := fresh "Hq" in
    intros q ? Hq; destruct q; try reflexivity; discriminate Hq
  | reflexivity ].

(** What [updateProfile] leaves in the stored document. *)
Lemma updatedUser_fields (w : World) (b : Body) (u : IUser) :
  firstName (updatedUser w b u)
  = firstName (doc (applyProfile b (hydrate false u)))
  /\ lastName (updatedUser w b u)
     = lastName (doc (applyProfile b (hydrate false u)))
  /\ bio (updatedUser w b u) = bio (doc (applyProfile b (hydrate false u)))
  /\ avatar (updatedUser w b u)
     = avatar (doc (applyProfile b (hydrate false u)))
  /\ untouched (updatedUser w b u) = untouched u
  /\ password (updatedUser w b u) = password u.
Proof.
  pose proof (tracks_applyProfile b u _ (tracks_hydrate u)) as T.
  unfold updatedUser. cbv zeta.
  set (d := applyProfile b (hydrate false u)) in *.
  destruct T as (T1 & T2 & T3 & T4 & T5 & T6 & T7 & T8).
  destruct (timestamps_paths w d T1) as [Hp _]. rewrite Hp.
  unfold isModified in T5, T6, T7, T8.
  split; [|split; [|split; [|split; [|split]]]].
  - stored_field firstName P_firstName T5.
  - stored_field lastName P_lastName T6.
  - stored_field bio P_bio T7.
  - stored_field avatar P_avatar T8.
  - apply applyUpdate_frame; [reflexivity | | exact T2].
    intros p x Hs. destruct p; try reflexivity; discriminate Hs.
  - apply applyUpdate_frame; [reflexivity | | exact T2].
    intros p x Hs. destruct p; try reflexivity; discriminate Hs.
Qed.

Lemma lookupById_id (i : string) (st : Store) (u : IUser) :
  lookupById i st = Some u -> _id u = i.
Proof.
  unfold lookupById. intros H. apply find_some in H. destruct H as [_ H].
  apply String.eqb_eq in H. exact H.
Qed.

Lemma hashOf_passwords (hash : string -> string -> string)
    (plain : list string) (st st' : Store) :
  map password st' = map password st ->
  Forall2 (hashOf hash) plain st -> Forall2 (hashOf hash) plain st'.
Proof.
  intros Hm H. revert st' Hm.
  induction H as [|pw u plain st Hu _ IH]; intros st' Hm.
  - destruct st'; [constructor | discriminate].
  - destruct st' as [|u' st']; [discriminate|].
    simpl in Hm. injection Hm as Hp Hm.
    constructor; [|apply IH; exact Hm].
    destruct Hu as [s Hs]. exists s. congruence.
Qed.

Section ProfileProperties.

Variable jwt_sign : JWTPayload -> string -> string -> Result string.
Variable bcrypt_hash : string -> string -> string.
Variable bcrypt_compare : string -> string -> bool.
Variable env : Env.

(** Saving a document that [updateProfile] loaded and assigned to: the
    hook leaves the password alone and the update writes the marked
    paths. *)
Lemma save_existing (w : World) (d : Document) (u : IUser) (st : Store) :
  Tracks u d ->
  save bcrypt_hash w d st
  = match validate d with
    | Throw err => (Throw err, st)
    | Ret _ =>
        match replaceById (_id u)
                (applyUpdate (doc (timestamps w d)) (modifiedPaths d)) st with
        | Some st' => (Ret (mkDoc (doc (timestamps w d)) false []), st')
        | None =>
            (Throw (DocumentNotFoundError "No document found for query"), st)
        end
    end.
Proof.
  intros (T1 & T2 & T3 & _).
  unfold save, mbind, lift.
  destruct (validate d) as [[]|err]; [|reflexivity].
  unfold preSave.
  rewrite (isModified_settable P_password d T2 eq_refl). simpl.
  destruct (timestamps_paths w d T1) as [Hp Hn]. rewrite Hn.
  unfold updateOne.
  assert (He : isModified P_email (timestamps w d) = false).
  { apply isModified_settable; [rewrite Hp; exact T2 | reflexivity]. }
  rewrite He, Hp. simpl.
  assert (Hi : _id (doc (timestamps w d)) = _id u).
  { rewrite (timestamps_get _id w d); [|reflexivity | exact T1].
    unfold untouched in T3. congruence. }
  rewrite Hi.
  destruct (replaceById (_id u) _ st); reflexivity.
Qed.

Lemma updateProfile_unfold (w : World) (req : AuthRequest) (st : Store) :
  updateProfile bcrypt_hash w req st
  = match user req with
    | None => (Ret (failure 404 "User not found"), st)
    | Some p =>
        match lookupById (Payload.id p) st with
        | None => (Ret (failure 404 "User not found"), st)
        | Some u =>
            let d := applyProfile (body req) (hydrate false u) in
            match validate d with
            | Throw err =>
                (Ret (serverError "Error updating profile" err), st)
            | Ret _ =>
                match replaceById (_id u)
                        (applyUpdate (doc (timestamps w d)) (modifiedPaths d))
                        st with
                | Some st' =>
                    (Ret (mkResponse 200
                            (profileUpdated (doc (timestamps w d)))), st')
                | None =>
                    (Ret (serverError "Error updating profile"
                            (DocumentNotFoundError
                               "No document found for query")), st)
                end
            end
        end
    end.
Proof.
  unfold updateProfile, mtry, mbind at 1, findById.
  destruct (user req) as [p|]; simpl; [|reflexivity].
  destruct (lookupById (Payload.id p) st) as [u|]; simpl; [|reflexivity].
  unfold mbind.
  rewrite (save_existing w _ u st
             (tracks_applyProfile (body req) u _ (tracks_hydrate u))).
  destruct (validate _) as [[]|err]; [|reflexivity].
  destruct (replaceById _ _ st); reflexivity.
Qed.


Lemma updateProfile_passwords (w : World) (req : AuthRequest)
    (st st' : Store) (r : Result Response) :
  updateProfile bcrypt_hash w req st = (r, st') ->
  map password st' = map password st.
Proof.
  rewrite updateProfile_unfold.
  destruct (user req) as [p|]; [|intros H; injection H as _ <-; reflexivity].
  destruct (lookupById (Payload.id p) st) as [u|];
    [|intros H; injection H as _ <-; reflexivity].
  cbv zeta.
  destruct (validate _) as [[]|err];
    [|intros H; injection H as _ <-; reflexivity].
  destruct (replaceById _ _ st) as [st''|] eqn:R;
    [|intros H; injection H as _ <-; reflexivity].
  intros H. injection H as _ <-.
  apply (replaceById_frame password _ _ _ _) with (2 := R).
  intros x. apply applyUpdate_frame.
  - reflexivity.
  - intros q y Hs. destruct q; try reflexivity; discriminate Hs.
  - apply (tracks_applyProfile (body req) u _ (tracks_hydrate u)).
Qed.

Lemma timestamps_password (w : World) (d : Document) :
  password (doc (timestamps w d)) = password (doc d).
Proof.
  unfold timestamps. destruct (isNew d); [reflexivity|].
  destruct (modifiedPaths d); reflexivity.
Qed.

Lemma save_password (w : World) (d d' : Document) (st st' : Store) :
  save bcrypt_hash w d st = (Ret d', st') ->
  (isModified P_password d = false -> password (doc d') = password (doc d))
  /\ (isModified P_password d = true ->
      exists pw, password (doc d) = Some pw
                 /\ password (doc d') = Some (bcrypt_hash pw (salt w))).
Proof.
  unfold save, mbind, lift.
  destruct (validate d) as [[]|err]; [|discriminate].
  unfold preSave.
  destruct (isModified P_password d); simpl.
  - destruct (password (doc d)) as [pw|] eqn:Hp; simpl; [|discriminate].
    match goal with
    | |- context [timestamps w ?x] => set (d1 := x)
    end.
    destruct ((if isNew (timestamps w d1)
               then insertOne (doc (timestamps w d1))
               else updateOne (timestamps w d1)) st) as [[[]|err] st1];
      [|discriminate].
    unfold mret. intros H. injection H as <- _. simpl.
    split; [discriminate|]. intros _. exists pw. split; [reflexivity|].
    rewrite timestamps_password. reflexivity.
  - destruct ((if isNew (timestamps w d)
               then insertOne (doc (timestamps w d))
               else updateOne (timestamps w d)) st) as [[[]|err] st1];
      [|discriminate].
    unfold mret. intros H. injection H as <- _. simpl.
    split; [|discriminate]. intros _. apply timestamps_password.
Qed.

Lemma login_store (req : AuthRequest) (st : Store) :
  snd (login jwt_sign bcrypt_compare env req st) = st.
Proof.
  rewrite login_unfold.
  destruct (nonEmpty (b_email (body req))) as [e|]; [|reflexivity].
  destruct (nonEmpty (b_password (body req))) as [pw|]; [|reflexivity].
  destruct (lookupByEmail e st) as [u|]; [|reflexivity].
  destruct (comparePassword bcrypt_compare u (JStr pw)) as [[|]|err];
    try reflexivity.
  destruct (getSignedJwtToken jwt_sign env u); reflexivity.
Qed.

Lemma getMe_store (req : AuthRequest) (st : Store) :
  snd (getMe req st) = st.
Proof.
  unfold getMe, mtry, mbind, findById.
  destruct (user req) as [p|]; simpl; [|reflexivity].
  destruct (lookupById (Payload.id p) st); reflexivity.
Qed.

(** C10. A save hashes the password exactly when the path is marked
    modified, which it is on a new document, and so does the pre-save
    hook on its own; a document created by
    [User.create] is stored with one hash of the plaintext; a profile
    update leaves every stored password as it is; and so every call to the
    API preserves that each stored password is a hash of the plaintext its
    user registered with. *)
Theorem password_hashed_once :
  (forall w d st d' st',
      save bcrypt_hash w d st = (Ret d', st') ->
      (isModified P_password d = false ->
       password (doc d') = password (doc d))
      /\ (isModified P_password d = true ->
          exists pw, password (doc d) = Some pw
                     /\ password (doc d')
                        = Some (bcrypt_hash pw (salt w))))
  /\ (forall w d,
        isModified P_password d = false -> preSave bcrypt_hash w d = Ret d)
  /\ (forall w d pw,
        isModified P_password d = true ->
        password (doc d) = Some pw ->
        preSave bcrypt_hash w d
        = Ret (mkDoc (withPassword (Some (bcrypt_hash pw (salt w))) (doc d))
                 (isNew d) (modifiedPaths d)))
  /\ (forall w fn ln e pw r st d st',
        create bcrypt_hash w fn ln e pw r st = (Ret d, st') ->
        exists u, st' = (st ++ [u])%list
                  /\ password u = Some (bcrypt_hash pw (salt w)))
  /\ (forall w req st r st',
        updateProfile bcrypt_hash w req st = (r, st') ->
        map password st' = map password st)
  /\ (forall c plain st r st',
        Forall2 (hashOf bcrypt_hash) plain st ->
        handle jwt_sign bcrypt_hash bcrypt_compare env c st = (r, st') ->
        Forall2 (hashOf bcrypt_hash) plain st'
        \/ exists w req pw,
             c = PostRegister w req
             /\ b_password (body req) = Some pw
             /\ Forall2 (hashOf bcrypt_hash) (plain ++ [pw])%list st').
Proof.
  split; [|split; [|split; [|split; [|split]]]].
  - intros w d st d' st'. apply save_password.
  - intros w d H. unfold preSave. rewrite H. reflexivity.
  - intros w d pw H Hp. unfold preSave. rewrite H, Hp. reflexivity.
  - intros w fn ln e pw r st d st'. rewrite create_cases.
    destruct (castRole r) as [r'|]; [|discriminate].
    destruct (validate _) as [[]|err]; [|discriminate].
    destruct (existsb _ st); [discriminate|].
    intros H. injection H as _ <-.
    exists (createdUser bcrypt_hash w fn ln e pw r'). split; reflexivity.
  - intros w req st r st'. apply updateProfile_passwords.
  - intros c plain st r st' Hinv H. destruct c as [w req|req|req|w req|req];
      simpl in H.
    + destruct (register_outcomes _ _ _ _ _ _ _ _ H)
        as [(res & _ & -> & _)
           |(fn & ln & e & pw & ro & _ & _ & _ & Hpw & _ & _ & -> & _)].
      * left. exact Hinv.
      * right. exists w, req, pw. split; [reflexivity|].
        apply nonEmpty_Some in Hpw. destruct Hpw as [Hpw _].
        split; [exact Hpw|].
        apply Forall2_app; [exact Hinv|].
        constructor; [|constructor]. exists (salt w). reflexivity.
    + left. pose proof (login_store req st) as Hs. rewrite H in Hs.
      simpl in Hs. subst st'. exact Hinv.
    + left. pose proof (getMe_store req st) as Hs. rewrite H in Hs.
      simpl in Hs. subst st'. exact Hinv.
    + left. apply (hashOf_passwords _ _ st); [|exact Hinv].
      apply (updateProfile_passwords _ _ _ _ _ H).
    + left. unfold logout, mret in H. injection H as _ <-. exact Hinv.
Qed.

End ProfileProperties.

(** ** The models run *)

Lemma prefix_append (a b : string) : String.prefix a (a ++ b) = true.
Proof.
  induction a as [|c a IH]; simpl; [destruct b; reflexivity|].
  destruct (Ascii.ascii_dec c c); [exact IH | contradiction].
Qed.

Lemma substringFrom_append (a b : string) :
  substringFrom (String.length a) (a ++ b) = b.
Proof. induction a as [|c a IH]; simpl; [destruct b; reflexivity | exact IH]. Qed.

Lemma append_assoc (a b c : string) : ((a ++ b) ++ c = a ++ b ++ c)%string.
Proof. induction a as [|x a IH]; simpl; [reflexivity | rewrite IH; reflexivity]. Qed.

Lemma length_append (a b : string) :
  String.length (a ++ b) = String.length a + String.length b.
Proof. induction a as [|x a IH]; simpl; [reflexivity | rewrite IH; reflexivity]. Qed.

Lemma readUnary_unary (n : nat) (t : string) :
  Sample.readUnary (Sample.unary n ++ t) = Some (n, t).
Proof. induction n as [|n IH]; simpl; [reflexivity | rewrite IH; reflexivity]. Qed.

Lemma splitAt_append (a b : string) :
  Sample.splitAt (String.length a) (a ++ b) = (a, b).
Proof.
  induction a as [|c a IH]; simpl; [destruct b; reflexivity|].
  rewrite IH. reflexivity.
Qed.

Lemma decode_encode (p : JWTPayload) : Sample.decode (Sample.encode p) = Some p.
Proof.
  destruct p as [i r e]. unfold Sample.decode, Sample.encode. simpl.
  assert (Hr : Sample.tagRole (Sample.roleTag r) = Some r)
    by (destruct r; reflexivity).
  rewrite Hr, readUnary_unary, splitAt_append. reflexivity.
Qed.

(** The stand-in codec signs every payload and verifies what it signed. *)
Lemma sample_codec (secret expiresIn : string) (p : JWTPayload) :
  exists t, Sample.jwt_sign p secret expiresIn = Ret t
            /\ Sample.jwt_verify t secret = Ret p.
Proof.
  exists (secret ++ "." ++ Sample.encode p). split; [reflexivity|].
  unfold Sample.jwt_verify, startsWith.
  rewrite <- append_assoc, prefix_append.
  replace (String.length secret + 1) with (String.length (secret ++ "."))
    by (rewrite length_append; reflexivity).
  rewrite substringFrom_append, decode_encode. reflexivity.
Qed.

(** [protect] on four requests: no header, a lower-case prefix, a token
    that does not verify, and Ann's token. *)
Lemma protect_gate_witness :
  protect Sample.jwt_verify Sample.env (Sample.anonymous emptyBody)
  = Ret (Responded
           (failure 401
              "Not authorized. Please login to access this resource."))
  /\ protect Sample.jwt_verify Sample.env
       (mkRequest (Some ("bearer " ++ Sample.annToken)) emptyBody None)
     = Ret (Responded
              (failure 401
                 "Not authorized. Please login to access this resource."))
  /\ (exists res,
        protect Sample.jwt_verify Sample.env
          (mkRequest (Some "Bearer garbage") emptyBody None)
        = Ret (Responded res)
        /\ status res = 401)
  /\ protect Sample.jwt_verify Sample.env
       (mkRequest (Some ("Bearer " ++ Sample.annToken)) emptyBody None)
     = Ret (CalledNext (Sample.asAnn emptyBody)).
Proof.
  split; [|split; [|split]].
  - apply (proj1 (protect_gate Sample.jwt_verify Sample.env
                    (Sample.anonymous emptyBody))).
    reflexivity.
  - apply (proj1 (proj2 (protect_gate Sample.jwt_verify Sample.env
                           (mkRequest (Some ("bearer " ++ Sample.annToken))
                              emptyBody None)))
             ("bearer " ++ Sample.annToken)); reflexivity.
  - apply (proj1 (proj2 (proj2
                           (protect_gate Sample.jwt_verify Sample.env
                              (mkRequest (Some "Bearer garbage")
                                 emptyBody None))))
             "Bearer garbage" (JsonWebTokenError "invalid signature"));
      reflexivity.
  - apply (proj2 (proj2 (proj2 (proj2
                                  (protect_gate Sample.jwt_verify Sample.env
                                     (mkRequest
                                        (Some ("Bearer " ++ Sample.annToken))
                                        emptyBody None)))))
             ("Bearer " ++ Sample.annToken) Sample.annIdentity);
      try reflexivity.
    discriminate.
Defined.

(** [authorize(ADMIN)] on a request without identity, on a student and on
    an admin. *)
Lemma authorize_guard_witness :
  authorize [ADMIN] (Sample.anonymous emptyBody)
  = Responded (failure 401 "Not authenticated")
  /\ authorize [ADMIN] (Sample.asAnn emptyBody)
     = Responded
         (failure 403
            "Access denied. This resource is only accessible to admin users.")
  /\ authorize [INSTRUCTOR; ADMIN]
       (mkRequest None emptyBody (Some (Payload.mk "u9" ADMIN "root@lms.io")))
     = CalledNext
         (mkRequest None emptyBody (Some (Payload.mk "u9" ADMIN "root@lms.io"))).
Proof.
  split; [|split].
  - apply (proj1 (authorize_guard [ADMIN] (Sample.anonymous emptyBody))).
    reflexivity.
  - apply (proj1 (proj2 (authorize_guard [ADMIN] (Sample.asAnn emptyBody)))
             Sample.annIdentity); [reflexivity|].
    simpl. intros [H|[]]. discriminate H.
  - apply (proj1 (proj2 (proj2
                           (authorize_guard [INSTRUCTOR; ADMIN]
                              (mkRequest None emptyBody
                                 (Some (Payload.mk "u9" ADMIN "root@lms.io"))))))
             (Payload.mk "u9" ADMIN "root@lms.io")); [reflexivity|].
    simpl. right. left. reflexivity.
Defined.

(** [protect] when extraction throws, and when verification throws. *)
Lemma protect_catches_all_witness :
  protectWith (fun _ => Throw (OtherError "boom")) (fun _ => Ret None)
    (Sample.anonymous emptyBody)
  = Ret (Responded (failure 401 "Authentication failed"))
  /\ protectWith (fun h => Ret (extractToken h))
       (fun _ => Throw (OtherError "boom"))
       (mkRequest (Some "Bearer abc") emptyBody None)
     = Ret (Responded (failure 401 "Authentication failed")).
Proof.
  split.
  - apply (proj1 (proj2
                    (protect_catches_all
                       (fun _ => Throw (OtherError "boom"))
                       (fun _ => Ret None)
                       (Sample.anonymous emptyBody)))
             (OtherError "boom")).
    reflexivity.
  - apply (proj1 (proj2 (proj2
                           (protect_catches_all
                              (fun h => Ret (extractToken h))
                              (fun _ => Throw (OtherError "boom"))
                              (mkRequest (Some "Bearer abc") emptyBody None))))
             "abc" (OtherError "boom")); try reflexivity.
    discriminate.
Defined.

(** [optionalAuth] without a header, with a token that does not verify,
    and with Ann's token. *)
Lemma optionalAuth_never_rejects_witness :
  optionalAuth Sample.jwt_verify Sample.env (Sample.anonymous emptyBody)
  = Ret (CalledNext (Sample.anonymous emptyBody))
  /\ optionalAuth Sample.jwt_verify Sample.env
       (mkRequest (Some "Bearer garbage") emptyBody None)
     = Ret (CalledNext (mkRequest (Some "Bearer garbage") emptyBody None))
  /\ optionalAuth Sample.jwt_verify Sample.env
       (mkRequest (Some ("Bearer " ++ Sample.annToken)) emptyBody None)
     = Ret (CalledNext (Sample.asAnn emptyBody)).
Proof.
  split; [|split].
  - apply (proj1 (proj2 (optionalAuth_never_rejects
                           (fun h => Ret (extractToken h))
                           (verifyToken Sample.jwt_verify Sample.env)
                           (Sample.anonymous emptyBody))
                    Sample.jwt_verify Sample.env)).
    reflexivity.
  - apply (proj1 (proj2 (proj2
                           (proj2 (optionalAuth_never_rejects
                                     (fun h => Ret (extractToken h))
                                     (verifyToken Sample.jwt_verify Sample.env)
                                     (mkRequest (Some "Bearer garbage")
                                        emptyBody None))
                              Sample.jwt_verify Sample.env)))
             "Bearer garbage" (JsonWebTokenError "invalid signature"));
      reflexivity.
  - apply (proj2 (proj2 (proj2
                           (proj2 (optionalAuth_never_rejects
                                     (fun h => Ret (extractToken h))
                                     (verifyToken Sample.jwt_verify Sample.env)
                                     (mkRequest
                                        (Some ("Bearer " ++ Sample.annToken))
                                        emptyBody None))
                              Sample.jwt_verify Sample.env)))
             ("Bearer " ++ Sample.annToken) Sample.annIdentity);
      try reflexivity.
    discriminate.
Defined.



(** Ann's email, in another case and with a leading blank, is taken. *)
Lemma register_duplicate_email_witness :
  exists res,
    register Sample.jwt_sign Sample.bcrypt_hash Sample.env Sample.world
      (Sample.anonymous
         (mkBody (Some "Ann") (Some "Lee") (Some " ANN@lms.io")
            (Some "another1") None None None))
      Sample.store
    = (Ret res, Sample.store)
    /\ status res = 400.
Proof.
  apply (register_duplicate_email Sample.jwt_sign Sample.bcrypt_hash
           Sample.env Sample.world _ Sample.store " ANN@lms.io" Sample.ann).
  - reflexivity.
  - left. reflexivity.
  - reflexivity.
Defined.

Lemma bob_valid : validNewUser " Bob " "Ray" "Bob@LMS.io" "hunter22".
Proof.
  unfold validNewUser. repeat split; try discriminate;
    try (vm_compute; reflexivity); simpl; lia.
Defined.

(** Bob registers without a role. *)
Lemma register_token_subject_witness :
  exists u t p,
    register Sample.jwt_sign Sample.bcrypt_hash Sample.env Sample.world
      (Sample.anonymous (Sample.bob None)) Sample.store
    = (Ret (mkResponse 201 (registered u t)), (Sample.store ++ [u])%list)
    /\ _id u = "u1"
    /\ verifyToken Sample.jwt_verify Sample.env t = Ret (Some p)
    /\ Payload.id p = _id u
    /\ hasKey "password" (registered u t) = false
    /\ (forall (hash' : string -> string -> string) (salt' pw' : string),
          6 <= String.length pw' ->
          fst (register Sample.jwt_sign hash' Sample.env
                 (mkWorld "u1" salt' 1000)
                 (withBodyPassword pw' (Sample.anonymous (Sample.bob None)))
                 Sample.store)
          = Ret (mkResponse 201 (registered u t))).
Proof.
  apply (register_token_subject Sample.jwt_sign Sample.jwt_verify
           Sample.bcrypt_hash Sample.env Sample.world
           (Sample.anonymous (Sample.bob None)) Sample.store
           " Bob " "Ray" "Bob@LMS.io" "hunter22" STUDENT);
    try reflexivity.
  - exact bob_valid.
  - intros p. apply sample_codec.
Defined.





(** Bob's registration extends the plaintexts behind the collection. *)
Lemma password_hashed_once_witness :
  Forall2 (hashOf Sample.bcrypt_hash) ["secret1"]
    (snd (handle Sample.jwt_sign Sample.bcrypt_hash Sample.bcrypt_compare
            Sample.env
            (PostRegister Sample.world (Sample.anonymous (Sample.bob None)))
            Sample.store))
  \/ exists w req pw,
       PostRegister Sample.world (Sample.anonymous (Sample.bob None))
       = PostRegister w req
       /\ b_password (body req) = Some pw
       /\ Forall2 (hashOf Sample.bcrypt_hash) (["secret1"] ++ [pw])%list
            (snd (handle Sample.jwt_sign Sample.bcrypt_hash
                    Sample.bcrypt_compare Sample.env
                    (PostRegister Sample.world
                       (Sample.anonymous (Sample.bob None)))
                    Sample.store)).
Proof.
  apply (proj2 (proj2 (proj2 (proj2 (proj2
                                (password_hashed_once Sample.jwt_sign
                                   Sample.bcrypt_hash Sample.bcrypt_compare
                                   Sample.env)))))
           (PostRegister Sample.world (Sample.anonymous (Sample.bob None)))
           ["secret1"] Sample.store
           (fst (handle Sample.jwt_sign Sample.bcrypt_hash
                   Sample.bcrypt_compare Sample.env
                   (PostRegister Sample.world
                      (Sample.anonymous (Sample.bob None)))
                   Sample.store))).
  - constructor; [|constructor]. exists "slt". reflexivity.
  - apply surjective_pairing.
Defined.

(** * Further properties *)

(** ** The email pattern *)

Lemma Matches_nullable (r : Regex) :
  nullable r = true -> Matches r EmptyString.
Proof.
  induction r; simpl; intros H; try discriminate.
  - constructor.
  - apply andb_true_iff in H. destruct H as [H1 H2].
    apply (MSeq _ _ EmptyString EmptyString); auto.
  - apply orb_true_iff in H. destruct H as [H|H];
      [apply MAltL | apply MAltR]; auto.
  - constructor.
Qed.

Lemma Matches_none (s : string) : ~ Matches RNone s.
Proof. intros H. inversion H. Qed.

Lemma Matches_seq' (a b : Regex) (s : string) :
  Matches (seq' a b) s -> Matches (RSeq a b) s.
Proof.
  destruct a; simpl; auto. intros H. destruct (Matches_none _ H).
Qed.

Lemma Matches_alt' (a b : Regex) (s : string) :
  Matches (alt' a b) s -> Matches (RAlt a b) s.
Proof.
  destruct a; simpl; try (intros H; apply MAltR; exact H);
    destruct b; simpl; auto; intros H; apply MAltL; exact H.
Qed.

Lemma Matches_deriv (r : Regex) (c : ascii) (s : string) :
  Matches (deriv c r) s -> Matches r (String c s).
Proof.
  revert s. induction r; simpl; intros s H.
  - destruct (Matches_none _ H).
  - destruct (Matches_none _ H).
  - destruct (p c) eqn:E; [|destruct (Matches_none _ H)].
    inversion H; subst. constructor. exact E.
  - destruct (nullable r1) eqn:N.
    + apply Matches_alt' in H. inversion H; subst.
      * apply Matches_seq' in H3. inversion H3; subst.
        apply (MSeq r1 r2 (String c s0) t); auto.
      * apply (MSeq r1 r2 EmptyString (String c s));
          [apply Matches_nullable; exact N | auto].
    + apply Matches_seq' in H. inversion H; subst.
      apply (MSeq r1 r2 (String c s0) t); auto.
  - apply Matches_alt' in H. inversion H; subst;
      [apply MAltL | apply MAltR]; auto.
  - apply Matches_seq' in H. inversion H; subst.
    apply (MStarCons r (String c s0) t); auto.
Qed.

(** The matcher accepts only what the pattern denotes. *)
Lemma test_Matches (r : Regex) (s : string) :
  test r s = true -> Matches r s.
Proof.
  revert r. induction s as [|c s IH]; simpl; intros r H.
  - apply Matches_nullable. exact H.
  - apply Matches_deriv. apply IH. exact H.
Qed.

Lemma allChars_app (p : ascii -> bool) (a b : string) :
  allChars p (a ++ b) = allChars p a && allChars p b.
Proof.
  induction a as [|c a IH]; simpl; [reflexivity|].
  rewrite IH, andb_assoc. reflexivity.
Qed.

Lemma Matches_within (q : ascii -> bool) (r : Regex) (s : string) :
  within q r -> Matches r s -> allChars q s = true.
Proof.
  intros W H. induction H; simpl in *.
  - reflexivity.
  - rewrite (W c H). reflexivity.
  - destruct W as [Wa Wb]. rewrite allChars_app, IHMatches1, IHMatches2; auto.
  - apply IHMatches. apply W.
  - apply IHMatches. apply W.
  - reflexivity.
  - rewrite allChars_app, IHMatches1, IHMatches2; auto.
Qed.

Lemma Matches_class_first (p : ascii -> bool) (b : Regex) (s : string) :
  Matches (RSeq (RClass p) b) s ->
  exists c t, s = String c t /\ p c = true /\ Matches b t.
Proof.
  intros H. inversion H; subst.
  match goal with
  | Hc : Matches (RClass p) _ |- _ => inversion Hc; subst
  end.
  simpl. eauto.
Qed.

Lemma Matches_star_last (r : Regex) (s : string) :
  Matches (RStar r) s ->
  s = EmptyString
  \/ exists s1 s2, s = s1 ++ s2 /\ Matches (RStar r) s1 /\ Matches r s2.
Proof.
  intros H. remember (RStar r) as x eqn:E.
  induction H; try discriminate; [left; reflexivity|].
  injection E as ->. right.
  destruct (IHMatches2 eq_refl) as [->|(t1 & t2 & -> & Ht1 & Ht2)].
  - exists EmptyString, s. repeat split; [|constructor | assumption].
    clear. induction s as [|c s IH]; simpl; [reflexivity|].
    rewrite IH. reflexivity.
  - exists (s ++ t1), t2. rewrite append_assoc.
    repeat split; [constructor|]; assumption.
Qed.

Lemma append_empty (s : string) : s ++ EmptyString = s.
Proof. induction s as [|c s IH]; simpl; [|rewrite IH]; reflexivity. Qed.

Lemma Matches_namePart (s : string) :
  Matches namePart s ->
  (exists c t, s = String c t /\ isWord c = true)
  /\ allChars isNameChar s = true.
Proof.
  intros H. split.
  - unfold namePart, RPlus in H. inversion H; subst.
    match goal with
    | Hc : Matches (RSeq word (RStar word)) _ |- _ =>
        apply Matches_class_first in Hc;
        destruct Hc as (c & t' & -> & Hw & _)
    end.
    simpl. eauto.
  - apply (Matches_within isNameChar namePart); [|exact H].
    unfold isNameChar. simpl. repeat split; intros c Hc;
      destruct (isWord c); simpl; try reflexivity; try exact Hc;
      discriminate Hc.
Qed.

Lemma Matches_topLabel (s : string) :
  Matches topLabel s ->
  exists t, s = String "."%char t
            /\ allChars isWord t = true
            /\ (String.length t = 2 \/ String.length t = 3).
Proof.
  intros H. unfold topLabel, RChar, ROpt in H.
  apply Matches_class_first in H. destruct H as (c & t & -> & Hc & H).
  apply Ascii.eqb_eq in Hc. subst c.
  apply Matches_class_first in H. destruct H as (c1 & t1 & -> & H1 & H).
  apply Matches_class_first in H. destruct H as (c2 & t2 & -> & H2 & H).
  exists (String c1 (String c2 t2)). split; [reflexivity|].
  inversion H; subst.
  - match goal with
    | Hc : Matches word _ |- _ => inversion Hc; subst
    end.
    simpl. split; [|right; reflexivity].
    repeat (apply andb_true_iff; split); auto.
  - match goal with
    | Hc : Matches REps _ |- _ => inversion Hc; subst
    end.
    simpl. split; [|left; reflexivity].
    repeat (apply andb_true_iff; split); auto.
Qed.

Lemma emailPattern_parts :
  emailPattern
  = RSeq namePart (RSeq (RChar "@"%char) (RSeq namePart (RPlus topLabel))).
Proof. reflexivity. Qed.

(** X1. An address the schema's email pattern accepts has the form
    [local@domain.label]: the local part and the domain begin with a word
    character and consist of word characters, dots and dashes (so there
    is exactly one [@]), and the label after the last dot is two or three
    word characters. *)
Theorem emailPattern_shape (s : string) :
  test emailPattern s = true ->
  exists l d t,
    s = l ++ "@" ++ d ++ "." ++ t
    /\ (exists c l', l = String c l' /\ isWord c = true)
    /\ (exists c d', d = String c d' /\ isWord c = true)
    /\ allChars isNameChar l = true
    /\ allChars isNameChar d = true
    /\ allChars isWord t = true
    /\ (String.length t = 2 \/ String.length t = 3).
Proof.
  intros H. apply test_Matches in H. rewrite emailPattern_parts in H.
  inversion H as [| |a b l rest Hl Hrest| | | |]; subst.
  apply Matches_class_first in Hrest.
  destruct Hrest as (c & rest' & -> & Hc & Hrest).
  apply Ascii.eqb_eq in Hc. subst c.
  inversion Hrest as [| |a b d0 tl Hd Htl| | | |]; subst.
  destruct (Matches_namePart _ Hl) as [Hl1 Hl2].
  destruct (Matches_namePart _ Hd) as [(c & d' & -> & Hw) Hd2].
  assert (Wt : within isNameChar topLabel).
  { unfold topLabel, RChar, ROpt, word. cbn [within].
    repeat split; intros x Hx;
      first [ apply Ascii.eqb_eq in Hx; subst x; reflexivity
            | unfold isNameChar; rewrite Hx; reflexivity ]. }
  unfold RPlus in Htl.
  inversion Htl as [| |a b t1 t2 Ht1 Ht2| | | |]; subst.
  destruct (Matches_star_last _ _ Ht2) as [->|(u1 & u2 & -> & Hu1 & Hu2)].
  - destruct (Matches_topLabel _ Ht1) as (t & -> & Ht & Hlen).
    exists l, (String c d'), t. rewrite append_empty.
    repeat split; auto. simpl. eauto.
  - destruct (Matches_topLabel _ Hu2) as (t & -> & Ht & Hlen).
    exists l, (String c d' ++ t1 ++ u1), t.
    split.
    { simpl. rewrite !append_assoc. reflexivity. }
    repeat split; auto.
    + simpl. eauto.
    + rewrite !allChars_app, Hd2.
      rewrite (Matches_within isNameChar topLabel t1 Wt Ht1).
      rewrite (Matches_within isNameChar (RStar topLabel) u1 Wt Hu1).
      reflexivity.
Qed.

(** ** Validation, read backwards *)

Lemma validate_Ret (d : Document) :
  validate d = Ret tt <->
  forall p, In p (pathsToValidate d) -> validatePath p (doc d) = None.
Proof.
  unfold validate, validationErrors. split.
  - intros H p Hin.
    destruct (validatePath p (doc d)) as [msg|] eqn:E; [|reflexivity].
    destruct (flat_map _ (pathsToValidate d)) as [|x l] eqn:F;
      [|discriminate H].
    assert (Hx : In (pathName p ++ ": " ++ msg)
                   (flat_map
                      (fun q => match validatePath q (doc d) with
                                | Some m => [pathName q ++ ": " ++ m]
                                | None => []
                                end) (pathsToValidate d))).
    { apply in_flat_map. exists p. split; [exact Hin|].
      rewrite E. left. reflexivity. }
    rewrite F in Hx. destruct Hx.
  - intros H.
    assert (F : flat_map
                  (fun q => match validatePath q (doc d) with
                            | Some m => [pathName q ++ ": " ++ m]
                            | None => []
                            end) (pathsToValidate d) = []).
    { induction (pathsToValidate d) as [|q l IH]; simpl; [reflexivity|].
      rewrite (H q (or_introl eq_refl)). simpl.
      apply IH. intros p Hp. apply H. right. exact Hp. }
    rewrite F. reflexivity.
Qed.

Lemma validate_Throw (d : Document) (err : Error) :
  validate d = Throw err -> exists msg, err = ValidationError msg.
Proof.
  unfold validate. destruct (validationErrors d); [discriminate|].
  intros H. injection H as <-. eauto.
Qed.

Lemma validName (v required tooLong : string) :
  (if String.eqb v "" then Some required
   else if (50 <? String.length v)%nat then Some tooLong else None) = None ->
  v <> "" /\ String.length v <= 50.
Proof.
  destruct (String.eqb_spec v ""); [discriminate|].
  destruct (Nat.ltb_spec 50 (String.length v)); [discriminate|].
  intros _. split; [assumption | lia].
Qed.

Lemma validatePath_firstName (u : IUser) :
  validatePath P_firstName u = None ->
  firstName u <> "" /\ String.length (firstName u) <= 50.
Proof. apply validName. Qed.

Lemma validatePath_lastName (u : IUser) :
  validatePath P_lastName u = None ->
  lastName u <> "" /\ String.length (lastName u) <= 50.
Proof. apply validName. Qed.

Lemma validatePath_email (u : IUser) :
  validatePath P_email u = None -> test emailPattern (email u) = true.
Proof.
  simpl. destruct (String.eqb (email u) ""); [discriminate|].
  destruct (test emailPattern (email u)); [reflexivity | discriminate].
Qed.

Lemma validatePath_password (u : IUser) :
  validatePath P_password u = None ->
  exists pw, password u = Some pw /\ 6 <= String.length pw.
Proof.
  simpl. destruct (nonEmpty (password u)) as [pw|] eqn:E; [|discriminate].
  apply nonEmpty_Some in E. destruct E as [E _].
  destruct (Nat.ltb_spec (String.length pw) 6); [discriminate|].
  intros _. exists pw. split; [exact E | lia].
Qed.

Lemma validatePath_bio (u : IUser) :
  validatePath P_bio u = None ->
  forall b, bio u = Some b -> String.length b <= 500.
Proof.
  simpl. intros H b Hb. rewrite Hb in H.
  destruct (Nat.ltb_spec 500 (String.length b)); [discriminate | lia].
Qed.

(** The validators accept a new document exactly for valid inputs. *)
Lemma validate_newDocument_iff (w : World) (fn ln e pw : string)
    (r : UserRole) :
  validate (newDocument w fn ln e pw r) = Ret tt <-> validNewUser fn ln e pw.
Proof.
  split; [|apply validate_newDocument].
  intros H. rewrite validate_Ret in H.
  assert (A : forall p, validatePath p (doc (newDocument w fn ln e pw r))
                        = None).
  { intros p. apply H. unfold pathsToValidate. simpl.
    destruct p; simpl; auto 10. }
  destruct (validatePath_firstName _ (A P_firstName)) as [F1 F2].
  destruct (validatePath_lastName _ (A P_lastName)) as [L1 L2].
  pose proof (validatePath_email _ (A P_email)) as E.
  destruct (validatePath_password _ (A P_password)) as (pw' & P1 & P2).
  simpl in *. injection P1 as <-.
  repeat split; assumption.
Qed.

Lemma existsb_duplicate (i e : string) (st : Store) :
  existsb (fun v => String.eqb (_id v) i
                    || String.eqb (email v) (castEmail e)) st = false ->
  forall v, In v st -> _id v <> i /\ email v <> castEmail e.
Proof.
  intros H v Hin.
  assert (Hv : String.eqb (_id v) i || String.eqb (email v) (castEmail e)
               = false).
  { destruct (String.eqb (_id v) i || String.eqb (email v) (castEmail e))
      eqn:E; [|reflexivity].
    assert (existsb (fun v => String.eqb (_id v) i
                              || String.eqb (email v) (castEmail e)) st
            = true) by (apply existsb_exists; eauto).
    congruence. }
  apply orb_false_iff in Hv. destruct Hv as [H1 H2].
  apply String.eqb_neq in H1. apply String.eqb_neq in H2. auto.
Qed.

Lemma lookupById_fresh (i : string) (st : Store) :
  (forall v, In v st -> _id v <> i) -> lookupById i st = None.
Proof.
  intros H. unfold lookupById.
  destruct (find (fun u => String.eqb (_id u) i) st) as [u|] eqn:F;
    [|reflexivity].
  apply find_some in F. destruct F as [Hin E].
  apply String.eqb_eq in E. destruct (H u Hin E).
Qed.

Lemma lookupByEmail_last (e : string) (st : Store) (u : IUser) :
  lookupByEmail e st = None -> email u = castEmail e ->
  lookupByEmail e (st ++ [u])%list = Some u.
Proof.
  unfold lookupByEmail. intros H He.
  induction st as [|x st IH]; simpl in *.
  - rewrite He, String.eqb_refl. reflexivity.
  - destruct (String.eqb (email x) (castEmail e)); [discriminate|].
    apply IH. exact H.
Qed.

Lemma lookupById_last (i : string) (st : Store) (u : IUser) :
  lookupById i st = None -> _id u = i ->
  lookupById i (st ++ [u])%list = Some u.
Proof.
  unfold lookupById. intros H He.
  induction st as [|x st IH]; simpl in *.
  - rewrite He, String.eqb_refl. reflexivity.
  - destruct (String.eqb (_id x) i); [discriminate|].
    apply IH. exact H.
Qed.

(** ** Registration and what follows it *)

Section RegistrationFlows.

Variable jwt_sign : JWTPayload -> string -> string -> Result string.
Variable jwt_verify : string -> string -> Result JWTPayload.
Variable bcrypt_hash : string -> string -> string.
Variable bcrypt_compare : string -> string -> bool.
Variable env : Env.

(** A registration either leaves the collection as it was or appends the
    document of valid inputs under an email and an id nothing stored had. *)
Lemma register_stores (w : World) (req : AuthRequest) (st st' : Store)
    (r : Result Response) :
  register jwt_sign bcrypt_hash env w req st = (r, st') ->
  st' = st
  \/ exists fn ln e pw ro,
       nonEmpty (b_firstName (body req)) = Some fn
       /\ nonEmpty (b_lastName (body req)) = Some ln
       /\ nonEmpty (b_email (body req)) = Some e
       /\ nonEmpty (b_password (body req)) = Some pw
       /\ castRole (orElse (b_role (body req)) "student") = Some ro
       /\ validNewUser fn ln e pw
       /\ (forall v, In v st -> _id v <> oid w /\ email v <> castEmail e)
       /\ st' = (st ++ [createdUser bcrypt_hash w fn ln e pw ro])%list.
Proof.
  rewrite register_unfold.
  destruct (nonEmpty (b_firstName (body req))) as [fn|];
    [|intros H; injection H as _ <-; auto].
  destruct (nonEmpty (b_lastName (body req))) as [ln|];
    [|intros H; injection H as _ <-; auto].
  destruct (nonEmpty (b_email (body req))) as [e|];
    [|intros H; injection H as _ <-; auto].
  destruct (nonEmpty (b_password (body req))) as [pw|];
    [|intros H; injection H as _ <-; auto].
  destruct (lookupByEmail e st); [intros H; injection H as _ <-; auto|].
  rewrite create_cases.
  destruct (castRole (orElse (b_role (body req)) "student")) as [ro|];
    [|intros H; injection H as _ <-; auto].
  destruct (validate (newDocument w fn ln e pw ro)) as [[]|err] eqn:V;
    [|intros H; injection H as _ <-; auto].
  destruct (existsb _ st) eqn:D; [intros H; injection H as _ <-; auto|].
  intros H.
  assert (Hst : st' = (st ++ [createdUser bcrypt_hash w fn ln e pw ro])%list).
  { destruct (getSignedJwtToken jwt_sign env _); injection H as _ <-;
      reflexivity. }
  right. exists fn, ln, e, pw, ro.
  apply (validate_newDocument_iff w fn ln e pw ro) in V.
  do 5 (split; [reflexivity|]).
  split; [exact V|]. split; [exact (existsb_duplicate _ _ _ D)|]. exact Hst.
Qed.

(** What a registration that is answered 201 has done. *)
Lemma register_201 (w : World) (req : AuthRequest) (st st' : Store)
    (res : Response) :
  register jwt_sign bcrypt_hash env w req st = (Ret res, st') ->
  status res = 201 ->
  exists fn ln e pw ro t,
    nonEmpty (b_email (body req)) = Some e
    /\ nonEmpty (b_password (body req)) = Some pw
    /\ validNewUser fn ln e pw
    /\ lookupByEmail e st = None
    /\ (forall v, In v st -> _id v <> oid w /\ email v <> castEmail e)
    /\ st' = (st ++ [createdUser bcrypt_hash w fn ln e pw ro])%list
    /\ jwt_sign (Payload.mk (oid w) ro (castEmail e))
         (secretOf env) (expiresInOf env) = Ret t
    /\ res = mkResponse 201
               (registered (createdUser bcrypt_hash w fn ln e pw ro) t).
Proof.
  intros H Hs.
  destruct (register_outcomes _ _ _ _ _ _ _ _ H)
    as [(res' & Hr & _ & Hst)
       |(fn & ln & e & pw & ro & _ & _ & He & Hp & _ & Hl & Hst & Ht)].
  - injection Hr as <-. destruct Hst as [Hst|Hst]; rewrite Hst in Hs;
      discriminate.
  - destruct Ht as [(t & Ht & Hr)|(err & _ & Hr)];
      injection Hr as Hr; subst res; [|discriminate Hs].
    destruct (register_stores _ _ _ _ _ H)
      as [Hx|(fn' & ln' & e' & pw' & ro' & _ & _ & He' & Hp' & _ & Hv & Hf
              & Hst')].
    + exfalso. rewrite Hx in Hst.
      apply (f_equal (@List.length IUser)) in Hst.
      rewrite length_app in Hst. simpl in Hst. lia.
    + assert (e' = e) by congruence. assert (pw' = pw) by congruence.
      subst e' pw'. rewrite Hst in Hst'. apply app_inv_head in Hst'.
      injection Hst' as Hfn Hln Hro.
      exists fn', ln', e, pw, ro, t.
      unfold createdUser. rewrite <- Hfn, <- Hln.
      fold (createdUser bcrypt_hash w fn ln e pw ro).
      split; [exact He|]. split; [exact Hp|]. split; [exact Hv|].
      split; [exact Hl|]. split; [exact Hf|]. split; [exact Hst|].
      split; [exact Ht | reflexivity].
Qed.

(** A registration for an email a stored document has is answered 400. *)
Lemma register_taken (w : World) (req : AuthRequest) (st : Store)
    (e : string) (u : IUser) :
  b_email (body req) = Some e -> In u st -> email u = castEmail e ->
  exists res,
    register jwt_sign bcrypt_hash env w req st = (Ret res, st)
    /\ status res = 400.
Proof.
  intros Hb Hin He. rewrite register_unfold.
  destruct (nonEmpty (b_firstName (body req))); [|simpl; eauto].
  destruct (nonEmpty (b_lastName (body req))); [|simpl; eauto].
  destruct (nonEmpty (b_email (body req))) as [e'|] eqn:Hn; [|simpl; eauto].
  destruct (nonEmpty (b_password (body req))); [|simpl; eauto].
  apply nonEmpty_Some in Hn. destruct Hn as [Hn _].
  assert (e' = e) by congruence. subst e'.
  destruct (lookupByEmail_In e st u Hin He) as [v Hv].
  rewrite Hv. simpl. eauto.
Qed.



(** X3. After a registration that was answered 201, the collection has
    one document more, and a second registration under the same email,
    in any letter case and with surrounding blanks, is answered 400 and
    stores nothing. *)
Theorem register_twice (w1 w2 : World) (req1 req2 : AuthRequest)
    (st st1 : Store) (res1 : Response) (e1 e2 : string) :
  register jwt_sign bcrypt_hash env w1 req1 st = (Ret res1, st1) ->
  status res1 = 201 ->
  b_email (body req1) = Some e1 ->
  b_email (body req2) = Some e2 ->
  castEmail e2 = castEmail e1 ->
  List.length st1 = S (List.length st)
  /\ exists res2,
       register jwt_sign bcrypt_hash env w2 req2 st1 = (Ret res2, st1)
       /\ status res2 = 400.
Proof.
  intros H Hs Hb1 Hb2 He.
  destruct (register_outcomes _ _ _ _ _ _ _ _ H)
    as [(res & Hr & _ & Hst)
       |(fn & ln & e & pw & ro & _ & _ & Hn & _ & _ & _ & -> & _)].
  - injection Hr as <-. destruct Hst as [Hst|Hst]; rewrite Hst in Hs;
      discriminate.
  - apply nonEmpty_Some in Hn. destruct Hn as [Hn _].
    assert (e = e1) by congruence. subst e.
    split.
    + rewrite length_app. simpl. lia.
    + apply (register_taken w2 req2 _ e2
               (createdUser bcrypt_hash w1 fn ln e1 pw ro) Hb2).
      * apply in_or_app. right. left. reflexivity.
      * simpl. symmetry. exact He.
Qed.

(** X4. After a registration that was answered 201, a login with the
    same password and the same email, in any letter case, finds the new
    document and is answered 200 with its view and a token signed over
    its id, role and email. It needs [bcrypt.compare] to accept the hash
    [bcrypt.hash] made of that password and [jwt.sign] not to throw. *)
Theorem register_then_login (w : World) (req req2 : AuthRequest)
    (st st1 : Store) (res : Response) (e e2 pw : string) :
  bcrypt_compare pw (bcrypt_hash pw (salt w)) = true ->
  (forall p, exists t, jwt_sign p (secretOf env) (expiresInOf env) = Ret t) ->
  register jwt_sign bcrypt_hash env w req st = (Ret res, st1) ->
  status res = 201 ->
  b_email (body req) = Some e ->
  b_password (body req) = Some pw ->
  nonEmpty (b_email (body req2)) = Some e2 ->
  castEmail e2 = castEmail e ->
  b_password (body req2) = Some pw ->
  exists u t,
    In u st1
    /\ _id u = oid w
    /\ jwt_sign (Payload.mk (_id u) (role u) (email u))
         (secretOf env) (expiresInOf env) = Ret t
    /\ login jwt_sign bcrypt_compare env req2 st1
       = (Ret (mkResponse 200 (loggedIn u t)), st1).
Proof.
  intros Hbc Hsign H Hs Hb Hp Hb2 He Hp2.
  destruct (register_201 _ _ _ _ _ H Hs)
    as (fn & ln & e' & pw' & ro & t0 & Hn & Hnp & _ & Hl & _ & -> & _ & _).
  apply nonEmpty_Some in Hn. destruct Hn as [Hn _].
  assert (e' = e) by congruence. subst e'.
  assert (Hnp2 : nonEmpty (b_password (body req2)) = Some pw').
  { rewrite Hp2. rewrite <- Hp. exact Hnp. }
  assert (pw' = pw).
  { apply nonEmpty_Some in Hnp. destruct Hnp as [Hnp _]. congruence. }
  subst pw'.
  destruct (Hsign (Payload.mk (oid w) ro (castEmail e))) as [t Ht].
  exists (createdUser bcrypt_hash w fn ln e pw ro), t.
  split; [apply in_or_app; right; left; reflexivity|].
  split; [reflexivity|]. split; [exact Ht|].
  rewrite login_unfold, Hb2, Hnp2.
  assert (Hl2 : lookupByEmail e2
                  (st ++ [createdUser bcrypt_hash w fn ln e pw ro])%list
                = Some (createdUser bcrypt_hash w fn ln e pw ro)).
  { unfold lookupByEmail. rewrite He.
    apply (lookupByEmail_last e st _ Hl). reflexivity. }
  rewrite Hl2. unfold comparePassword, getSignedJwtToken, createdUser.
  cbn [password _id role email]. rewrite Hbc, Ht. reflexivity.
Qed.

(** X5. The token of a 201 registration, sent as [Bearer <token>], gets
    through [protect] with the identity of the new document attached, and
    [getMe] then answers 200 with the view of that document. It needs
    [jwt.verify] to return what [jwt.sign] signed and tokens not to be
    empty. *)
Theorem register_then_session (w : World) (req : AuthRequest)
    (st st1 : Store) (res : Response) :
  (forall p t, jwt_sign p (secretOf env) (expiresInOf env) = Ret t ->
               t <> "" /\ jwt_verify t (secretOf env) = Ret p) ->
  register jwt_sign bcrypt_hash env w req st = (Ret res, st1) ->
  status res = 201 ->
  exists u t,
    json res = registered u t
    /\ In u st1
    /\ forall req2,
         authorization req2 = Some ("Bearer " ++ t) ->
         protect jwt_verify env req2
         = Ret (CalledNext
                  (setUser req2 (Payload.mk (_id u) (role u) (email u))))
         /\ getMe (setUser req2 (Payload.mk (_id u) (role u) (email u))) st1
            = (Ret (mkResponse 200 (fetched u)), st1).
Proof.
  intros Hcodec H Hs.
  destruct (register_201 _ _ _ _ _ H Hs)
    as (fn & ln & e & pw & ro & t & _ & _ & _ & _ & Hfresh & -> & Ht & ->).
  set (u := createdUser bcrypt_hash w fn ln e pw ro) in *.
  destruct (Hcodec _ _ Ht) as [Hne Hv].
  exists u, t. split; [reflexivity|].
  split; [apply in_or_app; right; left; reflexivity|].
  intros req2 Hauth. split.
  - unfold protect, protectWith, rbind. rewrite Hauth.
    assert (E : extractToken (Some ("Bearer " ++ t)) = Some t).
    { apply extractToken_Some. exists ("Bearer " ++ t).
      split; [reflexivity | split; [apply prefix_append | reflexivity]]. }
    rewrite E.
    assert (Hn : nonEmpty (Some t) = Some t) by (apply nonEmpty_Some; auto).
    rewrite Hn, (verifyToken_Ret _ _ _ _ Hv). reflexivity.
  - unfold getMe, mtry, mbind, findById. simpl.
    assert (Hl : lookupById (oid w) (st ++ [u])%list = Some u).
    { apply lookupById_last; [|reflexivity].
      apply lookupById_fresh. intros v Hin. apply (Hfresh v Hin). }
    rewrite Hl. reflexivity.
Qed.

End RegistrationFlows.

(** ** Every call to the API *)

Lemma hasKey_strings (k : string) (xs : list string) :
  hasKey k (strings xs) = false.
Proof.
  unfold strings. simpl. induction xs as [|x xs IH]; simpl; auto.
Qed.

Lemma hasKey_toJSON (u : IUser) :
  password u = None -> hasKey "password" (toJSON u) = false.
Proof.
  intros H. unfold toJSON, optField. rewrite H.
  destruct (bio u), (resetPasswordToken u), (resetPasswordExpire u);
    cbn -[strings]; rewrite !hasKey_strings; reflexivity.
Qed.

Lemma hasKey_meView (u : IUser) : hasKey "password" (meView u) = false.
Proof.
  unfold meView, optField.
  destruct (bio u); cbn -[strings]; rewrite !hasKey_strings; reflexivity.
Qed.

Lemma hasKey_loginView (u : IUser) : hasKey "password" (loginView u) = false.
Proof. unfold loginView, optField. destruct (bio u); reflexivity. Qed.

Lemma replaceById_Forall (P : IUser -> Prop) (i : string) (u' : IUser)
    (st st' : Store) :
  replaceById i (fun _ => u') st = Some st' ->
  Forall P st -> P u' -> Forall P st'.
Proof.
  revert st'. induction st as [|x st IH]; simpl; intros st' H F Hu;
    [discriminate|].
  inversion F; subst.
  destruct (String.eqb (_id x) i).
  - injection H as <-. constructor; assumption.
  - destruct (replaceById i (fun _ => u') st) as [r|]; [|discriminate].
    injection H as <-. constructor; [assumption|]. apply IH; auto.
Qed.

Lemma NoDup_snoc {A} (l : list A) (a : A) :
  NoDup l -> ~ In a l -> NoDup (l ++ [a]).
Proof.
  intros H Ha. induction H as [|x l Hx H IH]; simpl.
  - constructor; [intros []| constructor].
  - constructor.
    + intros Hin. apply in_app_or in Hin. destruct Hin as [Hin|[->|[]]].
      * contradiction.
      * apply Ha. left. reflexivity.
    + apply IH. intros Hin. apply Ha. right. exact Hin.
Qed.

Section EveryCall.

Variable jwt_sign : JWTPayload -> string -> string -> Result string.
Variable bcrypt_hash : string -> string -> string.
Variable bcrypt_compare : string -> string -> bool.
Variable env : Env.

(** Every way a profile update can end. *)
Lemma updateProfile_outcomes (w : World) (req : AuthRequest)
    (st st' : Store) (r : Result Response) :
  updateProfile bcrypt_hash w req st = (r, st') ->
  (st' = st
   /\ (r = Ret (failure 404 "User not found")
       \/ exists err, r = Ret (serverError "Error updating profile" err)))
  \/ exists p u,
       user req = Some p
       /\ lookupById (Payload.id p) st = Some u
       /\ validate (applyProfile (body req) (hydrate false u)) = Ret tt
       /\ replaceById (Payload.id p)
            (fun _ => updatedUser w (body req) u) st = Some st'
       /\ lookupById (Payload.id p) st' = Some (updatedUser w (body req) u)
       /\ map fixedFields st' = map fixedFields st
       /\ r = Ret (mkResponse 200
                     (profileUpdated
                        (doc (timestamps w
                                (applyProfile (body req)
                                   (hydrate false u)))))).
Proof.
  rewrite updateProfile_unfold.
  destruct (user req) as [p|];
    [|intros H; injection H as <- <-; left; auto].
  destruct (lookupById (Payload.id p) st) as [u|] eqn:Hl;
    [|intros H; injection H as <- <-; left; auto].
  cbv zeta.
  destruct (validate _) as [[]|err] eqn:V;
    [|intros H; injection H as <- <-; left; eauto].
  pose proof (lookupById_id _ _ _ Hl) as Hid. rewrite Hid.
  pose proof (tracks_applyProfile (body req) u _ (tracks_hydrate u))
    as T.
  destruct (replaceById_found (Payload.id p)
              (applyUpdate
                 (doc (timestamps w (applyProfile (body req) (hydrate false u))))
                 (modifiedPaths (applyProfile (body req) (hydrate false u))))
              st u Hl) as (st1 & R1 & R2 & R3).
  rewrite R1. intros H. injection H as <- <-. right. exists p, u.
  destruct (timestamps_paths w _ (proj1 T)) as [Hp _].
  assert (Eu : applyUpdate
                 (doc (timestamps w (applyProfile (body req) (hydrate false u))))
                 (modifiedPaths (applyProfile (body req) (hydrate false u)))
                 u
               = updatedUser w (body req) u).
  { unfold updatedUser. cbv zeta. rewrite Hp. reflexivity. }
  rewrite Eu in R2, R3.
  destruct (updatedUser_fields w (body req) u) as (_ & _ & _ & _ & F5 & _).
  split; [reflexivity|]. split; [exact Hl|]. split; [exact V|].
  split; [exact R2|].
  split; [apply R3; unfold untouched in F5; congruence|].
  split; [|reflexivity].
  apply (replaceById_frame fixedFields _ _ _ _) with (2 := R1).
  intros x. apply applyUpdate_frame.
  - reflexivity.
  - intros q y Hs. destruct q; try reflexivity; discriminate Hs.
  - apply T.
Qed.

(** X6. No handler lets an exception escape: every call is answered, and
    with one of the status codes of its route. *)
Theorem handle_responds (c : Call) (st : Store) :
  exists res st',
    handle jwt_sign bcrypt_hash bcrypt_compare env c st = (Ret res, st')
    /\ In (status res)
         match c with
         | PostRegister _ _ => [201; 400; 500]
         | PostLogin _ => [200; 400; 401; 500]
         | GetMe _ => [200; 404; 500]
         | PutUpdateProfile _ _ => [200; 404; 500]
         | PostLogout _ => [200]
         end.
Proof.
  destruct c as [w req|req|req|w req|req]; simpl.
  - destruct (register jwt_sign bcrypt_hash env w req st) as [r st'] eqn:H.
    destruct (register_outcomes _ _ _ _ _ _ _ _ H)
      as [(res & -> & _ & [Hs|Hs])
         |(fn & ln & e & pw & ro & _ & _ & _ & _ & _ & _ & _
           & [(t & _ & ->)|(err & _ & ->)])];
      eexists; eexists; (split; [reflexivity|]); rewrite ?Hs; simpl; auto.
  - rewrite login_unfold.
    destruct (nonEmpty (b_email (body req))) as [e|];
      [|eexists; eexists; split; [reflexivity | simpl; auto]].
    destruct (nonEmpty (b_password (body req))) as [pw|];
      [|eexists; eexists; split; [reflexivity | simpl; auto]].
    destruct (lookupByEmail e st) as [u|];
      [|eexists; eexists; split; [reflexivity | simpl; auto]].
    destruct (comparePassword bcrypt_compare u (JStr pw)) as [[|]|err];
      [|eexists; eexists; split; [reflexivity | simpl; auto]..].
    destruct (getSignedJwtToken jwt_sign env u);
      eexists; eexists; split; try reflexivity; simpl; auto.
  - unfold getMe, mtry, mbind, findById.
    destruct (user req) as [p|]; simpl;
      [|eexists; eexists; split; [reflexivity | simpl; auto]].
    destruct (lookupById (Payload.id p) st);
      eexists; eexists; split; try reflexivity; simpl; auto.
  - destruct (updateProfile bcrypt_hash w req st) as [r st'] eqn:H.
    destruct (updateProfile_outcomes _ _ _ _ _ H)
      as [(_ & [->|(err & ->)])|(p & u & _ & _ & _ & _ & _ & _ & ->)];
      eexists; eexists; split; try reflexivity; simpl; auto.
  - eexists; eexists; split; [reflexivity | simpl; auto].
Qed.

(** X7. No response of any handler has a [password] property: not the
    views of [register], [login] and [getMe], and not the whole document
    [updateProfile] returns, which was loaded without the field. *)
Theorem handle_no_password (c : Call) (st st' : Store) (res : Response) :
  handle jwt_sign bcrypt_hash bcrypt_compare env c st = (Ret res, st') ->
  hasKey "password" (json res) = false.
Proof.
  destruct c as [w req|req|req|w req|req]; simpl.
  - rewrite register_unfold.
    destruct (nonEmpty (b_firstName (body req)));
      [|intros H; injection H as <- _; reflexivity].
    destruct (nonEmpty (b_lastName (body req)));
      [|intros H; injection H as <- _; reflexivity].
    destruct (nonEmpty (b_email (body req))) as [e|];
      [|intros H; injection H as <- _; reflexivity].
    destruct (nonEmpty (b_password (body req)));
      [|intros H; injection H as <- _; reflexivity].
    destruct (lookupByEmail e st);
      [intros H; injection H as <- _; reflexivity|].
    destruct (create _ _ _ _ _ _ _ st) as [[u|err] st1];
      [|intros H; injection H as <- _; reflexivity].
    destruct (getSignedJwtToken jwt_sign env (doc u));
      intros H; injection H as <- _; reflexivity.
  - rewrite login_unfold.
    destruct (nonEmpty (b_email (body req))) as [e|];
      [|intros H; injection H as <- _; reflexivity].
    destruct (nonEmpty (b_password (body req))) as [pw|];
      [|intros H; injection H as <- _; reflexivity].
    destruct (lookupByEmail e st) as [u|];
      [|intros H; injection H as <- _; reflexivity].
    destruct (comparePassword bcrypt_compare u (JStr pw)) as [[|]|err];
      [|intros H; injection H as <- _; reflexivity..].
    destruct (getSignedJwtToken jwt_sign env u);
      intros H; injection H as <- _; [|reflexivity].
    cbn -[loginView]. rewrite hasKey_loginView. reflexivity.
  - unfold getMe, mtry, mbind, findById.
    destruct (user req) as [p|]; simpl;
      [|intros H; injection H as <- _; reflexivity].
    destruct (lookupById (Payload.id p) st) as [u|]; simpl;
      intros H; injection H as <- _; [|reflexivity].
    cbn -[meView]. rewrite hasKey_meView. reflexivity.
  - intros H.
    destruct (updateProfile_outcomes _ _ _ _ _ H)
      as [(_ & [Hr|(err & Hr)])|(p & u & _ & _ & _ & _ & _ & _ & Hr)];
      injection Hr as ->; try reflexivity.
    cbn -[toJSON]. rewrite hasKey_toJSON; [reflexivity|].
    rewrite timestamps_password.
    apply (tracks_applyProfile (body req) u _ (tracks_hydrate u)).
  - unfold logout, mret. intros H. injection H as <- _. reflexivity.
Qed.

(** X8. No call removes a stored document or changes its id, email,
    role, password, creation date, courses, verification flag or reset
    fields: a call adds at most one document at the end. [login], [getMe]
    and [logout] write nothing at all, and neither does any call that is
    answered 400, 401 or 404. *)
Theorem handle_keeps_fixed_fields (c : Call) (st st' : Store)
    (r : Result Response) :
  handle jwt_sign bcrypt_hash bcrypt_compare env c st = (r, st') ->
  (exists added,
      List.length added <= 1
      /\ map fixedFields st' = map fixedFields (st ++ added))
  /\ match c with
     | PostLogin _ | GetMe _ | PostLogout _ => st' = st
     | PostRegister _ _ | PutUpdateProfile _ _ => True
     end
  /\ (forall res, r = Ret res ->
        status res = 400 \/ status res = 401 \/ status res = 404 ->
        st' = st).
Proof.
  assert (Same : forall x y : Store,
             y = x ->
             exists added, List.length added <= 1
                           /\ map fixedFields y = map fixedFields (x ++ added)).
  { intros x y ->. exists []. rewrite app_nil_r. split; [simpl; lia|].
    reflexivity. }
  destruct c as [w req|req|req|w req|req]; simpl; intros H.
  - destruct (register_outcomes _ _ _ _ _ _ _ _ H)
      as [(res & -> & -> & _)
         |(fn & ln & e & pw & ro & _ & _ & _ & _ & _ & _ & ->
           & [(t & _ & ->)|(err & _ & ->)])].
    + split; [apply Same; reflexivity|]. split; auto.
    + split; [eexists; split; [|reflexivity]; simpl; lia|].
      split; [exact I|]. intros res Hr Hs. injection Hr as <-.
      unfold serverError in Hs. simpl in Hs. lia.
    + split; [eexists; split; [|reflexivity]; simpl; lia|].
      split; [exact I|]. intros res Hr Hs. injection Hr as <-.
      unfold serverError in Hs. simpl in Hs. lia.
  - pose proof (login_store jwt_sign bcrypt_compare env req st) as Hs.
    rewrite H in Hs. simpl in Hs. subst st'.
    split; [apply Same; reflexivity|]. split; auto.
  - pose proof (getMe_store req st) as Hs.
    rewrite H in Hs. simpl in Hs. subst st'.
    split; [apply Same; reflexivity|]. split; auto.
  - destruct (updateProfile_outcomes _ _ _ _ _ H)
      as [(-> & _)|(p & u & _ & _ & _ & _ & _ & Hf & ->)].
    + split; [apply Same; reflexivity|]. split; auto.
    + split; [exists []; rewrite app_nil_r; split; [simpl; lia | exact Hf]|].
      split; [exact I|]. intros res Hr Hs. injection Hr as <-.
      unfold serverError in Hs. simpl in Hs. lia.
  - unfold logout, mret in H. injection H as _ <-.
    split; [apply Same; reflexivity|]. split; auto.
Qed.

Lemma validStored_created (w : World) (fn ln e pw : string) (ro : UserRole) :
  validNewUser fn ln e pw ->
  validStored (createdUser bcrypt_hash w fn ln e pw ro).
Proof.
  intros (F1 & F2 & L1 & L2 & E & P). unfold validStored. simpl.
  repeat split; try assumption; discriminate.
Qed.

Lemma validStored_updated (w : World) (b : Body) (u : IUser) :
  validStored u ->
  validate (applyProfile b (hydrate false u)) = Ret tt ->
  validStored (updatedUser w b u).
Proof.
  intros (_ & _ & _ & _ & E & _ & P) V.
  rewrite validate_Ret in V.
  assert (A : forall q, Path_eqb q P_password = false ->
                        validatePath q (doc (applyProfile b (hydrate false u)))
                        = None).
  { intros q Hq. apply V. unfold pathsToValidate. apply filter_In. split.
    - destruct q; simpl; auto 10.
    - destruct q; simpl in Hq; try discriminate Hq; simpl;
        destruct (isNew _); reflexivity. }
  destruct (updatedUser_fields w b u) as (F1 & F2 & F3 & F4 & F5 & F6).
  unfold validStored. rewrite F1, F2, F3, F6.
  assert (Em : email (updatedUser w b u) = email u)
    by (unfold untouched in F5; congruence).
  rewrite Em.
  destruct (validatePath_firstName _ (A P_firstName eq_refl)) as [N1 N2].
  destruct (validatePath_lastName _ (A P_lastName eq_refl)) as [N3 N4].
  pose proof (validatePath_bio _ (A P_bio eq_refl)) as N5.
  repeat split; assumption.
Qed.

(** X9. Every call keeps the collection well formed: no two documents
    share an id or an email, and every document satisfies the schema's
    validators and has a password. *)
Theorem handle_keeps_WellFormed (c : Call) (st st' : Store)
    (r : Result Response) :
  WellFormed st ->
  handle jwt_sign bcrypt_hash bcrypt_compare env c st = (r, st') ->
  WellFormed st'.
Proof.
  intros (Hi & He & Hv) H.
  destruct c as [w req|req|req|w req|req]; simpl in H.
  - destruct (register_stores _ _ _ _ _ _ _ _ H)
      as [->|(fn & ln & e & pw & ro & _ & _ & _ & _ & _ & V & Hf & ->)];
      [repeat split; assumption|].
    unfold WellFormed. rewrite !map_app. simpl.
    split; [|split].
    + apply NoDup_snoc; [exact Hi|]. intros Hin.
      apply in_map_iff in Hin. destruct Hin as (v & Hv1 & Hv2).
      apply (proj1 (Hf v Hv2)). exact Hv1.
    + apply NoDup_snoc; [exact He|]. intros Hin.
      apply in_map_iff in Hin. destruct Hin as (v & Hv1 & Hv2).
      apply (proj2 (Hf v Hv2)). exact Hv1.
    + apply Forall_app. split; [exact Hv|].
      constructor; [|constructor]. apply validStored_created. exact V.
  - pose proof (login_store jwt_sign bcrypt_compare env req st) as Hs.
    rewrite H in Hs. simpl in Hs. subst st'. repeat split; assumption.
  - pose proof (getMe_store req st) as Hs.
    rewrite H in Hs. simpl in Hs. subst st'. repeat split; assumption.
  - destruct (updateProfile_outcomes _ _ _ _ _ H)
      as [(-> & _)|(p & u & _ & Hl & V & R & _ & Hf & _)];
      [repeat split; assumption|].
    assert (Hid : map _id st' = map _id st).
    { apply (f_equal (map (fun x => fst (fst (fst (fst (fst (fst (fst (fst (fst x))))))))))) in Hf.
      rewrite !map_map in Hf. exact Hf. }
    assert (Hem : map email st' = map email st).
    { apply (f_equal (map (fun x => snd (fst (fst (fst (fst (fst (fst (fst (fst x))))))))))) in Hf.
      rewrite !map_map in Hf. exact Hf. }
    unfold WellFormed. rewrite Hid, Hem.
    split; [exact Hi|]. split; [exact He|].
    apply (replaceById_Forall validStored _ _ _ _ R Hv).
    apply validStored_updated; [|exact V].
    unfold lookupById in Hl. apply find_some in Hl.
    rewrite Forall_forall in Hv. apply Hv. apply Hl.
  - unfold logout, mret in H. injection H as _ <-. repeat split; assumption.
Qed.

End EveryCall.

(** ** Profile updates, repeated and read back *)

Lemma applyProfile_fixed (b : Body) (d : Document) :
  (forall v, nonEmpty (b_firstName b) = Some v ->
             firstName (doc d) = trim v) ->
  (forall v, nonEmpty (b_lastName b) = Some v -> lastName (doc d) = trim v) ->
  (forall v, b_bio b = Some v -> bio (doc d) = Some v) ->
  (forall v, nonEmpty (b_avatar b) = Some v -> avatar (doc d) = v) ->
  applyProfile b d = d.
Proof.
  intros H1 H2 H3 H4. unfold applyProfile.
  assert (E1 : match nonEmpty (b_firstName b) with
               | Some v => setFirstName v d
               | None => d
               end = d).
  { destruct (nonEmpty (b_firstName b)) as [v|]; [|reflexivity].
    unfold setFirstName. rewrite (H1 v eq_refl), String.eqb_refl.
    reflexivity. }
  rewrite E1.
  assert (E2 : match nonEmpty (b_lastName b) with
               | Some v => setLastName v d
               | None => d
               end = d).
  { destruct (nonEmpty (b_lastName b)) as [v|]; [|reflexivity].
    unfold setLastName. rewrite (H2 v eq_refl), String.eqb_refl.
    reflexivity. }
  rewrite E2.
  assert (E3 : match b_bio b with
               | Some v => setBio v d
               | None => d
               end = d).
  { destruct (b_bio b) as [v|]; [|reflexivity].
    unfold setBio. rewrite (H3 v eq_refl). simpl.
    rewrite String.eqb_refl. reflexivity. }
  rewrite E3.
  destruct (nonEmpty (b_avatar b)) as [v|]; [|reflexivity].
  unfold setAvatar. rewrite (H4 v eq_refl), String.eqb_refl. reflexivity.
Qed.

Lemma replaceById_same (i : string) (f : IUser -> IUser) (st : Store)
    (u : IUser) :
  (forall x, f x = x) -> lookupById i st = Some u ->
  replaceById i f st = Some st.
Proof.
  intros Hf. unfold lookupById.
  induction st as [|x st IH]; simpl; [discriminate|].
  destruct (String.eqb (_id x) i).
  - intros _. rewrite Hf. reflexivity.
  - intros H. rewrite (IH H). reflexivity.
Qed.

Lemma meView_ext (a b : IUser) :
  firstName a = firstName b -> lastName a = lastName b ->
  bio a = bio b -> avatar a = avatar b -> untouched a = untouched b ->
  meView a = meView b.
Proof.
  unfold untouched, meView. intros H1 H2 H3 H4 H5.
  injection H5 as -> -> -> -> -> ->.
  rewrite H1, H2, H3, H4. reflexivity.
Qed.

Lemma validatePath_ext (q : Path) (a b : IUser) :
  Path_eqb q P_password = false ->
  firstName a = firstName b -> lastName a = lastName b ->
  bio a = bio b -> email a = email b ->
  validatePath q a = validatePath q b.
Proof.
  intros Hq H1 H2 H3 H4.
  destruct q; simpl in *; try discriminate Hq;
    rewrite ?H1, ?H2, ?H3, ?H4; reflexivity.
Qed.

Section ProfileFlows.

Variable bcrypt_hash : string -> string -> string.

(** What a profile update that is answered 200 has done. *)
Lemma updateProfile_200 (w : World) (req : AuthRequest) (st st' : Store)
    (res : Response) :
  updateProfile bcrypt_hash w req st = (Ret res, st') ->
  status res = 200 ->
  exists p u,
    user req = Some p
    /\ lookupById (Payload.id p) st = Some u
    /\ validate (applyProfile (body req) (hydrate false u)) = Ret tt
    /\ lookupById (Payload.id p) st' = Some (updatedUser w (body req) u)
    /\ res = mkResponse 200
               (profileUpdated
                  (doc (timestamps w
                          (applyProfile (body req) (hydrate false u))))).
Proof.
  intros H Hs.
  destruct (updateProfile_outcomes _ _ _ _ _ _ H)
    as [(_ & [Hr|(err & Hr)])|(p & u & Hu & Hl & V & _ & Hl' & _ & Hr)];
    injection Hr as ->; try discriminate Hs.
  exists p, u. auto.
Qed.

(** X10. A profile update that was answered 200, sent again, is answered
    200 and writes nothing: every value it assigns is already there, so no
    path is marked modified and not even [updatedAt] moves. *)
Theorem updateProfile_again (w w2 : World) (req : AuthRequest)
    (st st' : Store) (res : Response) :
  updateProfile bcrypt_hash w req st = (Ret res, st') ->
  status res = 200 ->
  exists res2,
    updateProfile bcrypt_hash w2 req st' = (Ret res2, st')
    /\ status res2 = 200.
Proof.
  intros H Hs.
  destruct (updateProfile_200 _ _ _ _ _ H Hs) as (p & u & Hu & Hl & V & Hl' & _).
  destruct (updatedUser_fields w (body req) u) as (F1 & F2 & F3 & F4 & F5 & F6).
  destruct (applyProfile_values (body req) (hydrate false u))
    as (V1 & V2 & V3 & V4).
  set (u' := updatedUser w (body req) u) in *.
  assert (Fix : applyProfile (body req) (hydrate false u') = hydrate false u').
  { apply applyProfile_fixed; simpl.
    - intros v Hv. rewrite F1, V1, Hv. reflexivity.
    - intros v Hv. rewrite F2, V2, Hv. reflexivity.
    - intros v Hv. rewrite F3, V3, Hv. reflexivity.
    - intros v Hv. rewrite F4, V4, Hv. reflexivity. }
  assert (V' : validate (hydrate false u') = Ret tt).
  { rewrite validate_Ret in V |- *. intros q Hq.
    unfold pathsToValidate in Hq. apply filter_In in Hq.
    destruct Hq as [_ Hq].
    assert (Hqp : Path_eqb q P_password = false).
    { destruct q; try reflexivity. simpl in Hq. discriminate Hq. }
    rewrite (validatePath_ext q _
               (doc (applyProfile (body req) (hydrate false u))) Hqp);
      simpl; auto.
    - apply V. unfold pathsToValidate. apply filter_In. split.
      + destruct q; simpl; auto 10.
      + destruct q; simpl in Hqp; try discriminate Hqp; simpl;
          rewrite orb_true_r; reflexivity.
    - unfold untouched in F5.
      pose proof (tracks_applyProfile (body req) u _ (tracks_hydrate u))
        as (_ & _ & T3 & _).
      unfold untouched in T3. congruence. }
  rewrite updateProfile_unfold, Hu, Hl'. cbv zeta. rewrite Fix, V'.
  rewrite (replaceById_same (_id u') _ st' u').
  - eexists. split; reflexivity.
  - intros x. reflexivity.
  - assert (Hid : _id u' = Payload.id p)
      by (apply (lookupById_id _ _ _ Hl')).
    rewrite Hid. exact Hl'.
Qed.

(** X11. After a profile update that was answered 200, [getMe] for the
    same identity answers 200 with the view of the very document the
    update returned. *)
Theorem updateProfile_then_getMe (w : World) (req : AuthRequest)
    (st st' : Store) (res : Response) :
  updateProfile bcrypt_hash w req st = (Ret res, st') ->
  status res = 200 ->
  exists d,
    json res = profileUpdated d
    /\ getMe req st' = (Ret (mkResponse 200 (fetched d)), st').
Proof.
  intros H Hs.
  destruct (updateProfile_200 _ _ _ _ _ H Hs)
    as (p & u & Hu & Hl & V & Hl' & ->).
  eexists. split; [reflexivity|].
  unfold getMe, mtry, mbind, findById. rewrite Hu. simpl. rewrite Hl'.
  simpl. unfold fetched.
  destruct (updatedUser_fields w (body req) u) as (F1 & F2 & F3 & F4 & F5 & _).
  pose proof (tracks_applyProfile (body req) u _ (tracks_hydrate u))
    as (T1 & _ & T3 & _).
  rewrite (meView_ext _
             (doc (timestamps w (applyProfile (body req) (hydrate false u)))));
    [reflexivity| | | | |].
  - simpl. rewrite F1. symmetry. apply timestamps_get; [reflexivity | exact T1].
  - simpl. rewrite F2. symmetry. apply timestamps_get; [reflexivity | exact T1].
  - simpl. rewrite F3. symmetry. apply timestamps_get; [reflexivity | exact T1].
  - simpl. rewrite F4. symmetry. apply timestamps_get; [reflexivity | exact T1].
  - transitivity (untouched u); [exact F5|]. rewrite <- T3. symmetry.
    apply (timestamps_get untouched); [reflexivity | exact T1].
Qed.

End ProfileFlows.

(** ** The middleware together *)

Lemma prefix_split (p s : string) :
  String.prefix p s = true -> s = p ++ substringFrom (String.length p) s.
Proof.
  revert s. induction p as [|c p IH]; intros s H.
  - destruct s; reflexivity.
  - destruct s as [|c' s]; [discriminate H|]. simpl in H.
    destruct (Ascii.ascii_dec c c') as [->|]; [|discriminate H].
    simpl. rewrite <- (IH s H). reflexivity.
Qed.

(** X12. [extractToken] undoes the [Bearer ] prefix and nothing else: it
    returns [t] on [Bearer t], for every [t], and whenever it returns a
    token the header was [Bearer ] followed by exactly that token. *)
Theorem extractToken_bearer :
  (forall t, extractToken (Some ("Bearer " ++ t)) = Some t)
  /\ (forall h t, extractToken h = Some t -> h = Some ("Bearer " ++ t)).
Proof.
  split.
  - intros t. apply extractToken_Some. exists ("Bearer " ++ t).
    split; [reflexivity | split; [apply prefix_append | reflexivity]].
  - intros h t H. apply extractToken_Some in H.
    destruct H as (v & -> & Hp & ->).
    f_equal. apply (prefix_split "Bearer " v Hp).
Qed.

Section MiddlewareTogether.

Variable jwt_verify : string -> string -> Result JWTPayload.
Variable env : Env.

(** X13. [optionalAuth] and [protect] agree on who is authenticated: when
    [protect] calls [next], [optionalAuth] calls [next] on the same
    request with the same identity, and when [protect] answers 401,
    [optionalAuth] calls [next] on the request as it came. *)
Theorem optionalAuth_agrees_with_protect (req : AuthRequest) :
  (forall req', protect jwt_verify env req = Ret (CalledNext req') ->
                optionalAuth jwt_verify env req = Ret (CalledNext req'))
  /\ (forall res, protect jwt_verify env req = Ret (Responded res) ->
                  optionalAuth jwt_verify env req = Ret (CalledNext req)).
Proof.
  unfold protect, optionalAuth, protectWith, optionalAuthWith, rbind.
  cbv beta iota.
  destruct (nonEmpty (extractToken (authorization req))) as [tok|].
  - destruct (verifyToken_total jwt_verify env tok) as [[p|] Hv];
      rewrite Hv; simpl; split; intros x H; try discriminate H;
      try exact H; reflexivity.
  - simpl. split; intros x H; [discriminate H | reflexivity].
Qed.

(** X14. Behind [protect], the guard [authorize(...roles)] never answers
    401: the request [protect] hands on carries an identity, so the guard
    calls [next] when that identity's role is allowed and answers 403
    otherwise. *)
Theorem protect_then_authorize (roles : list UserRole)
    (req req' : AuthRequest) :
  protect jwt_verify env req = Ret (CalledNext req') ->
  exists p,
    user req' = Some p
    /\ (In (Payload.role p) roles -> authorize roles req' = CalledNext req')
    /\ (~ In (Payload.role p) roles ->
        exists res, authorize roles req' = Responded res
                    /\ status res = 403).
Proof.
  unfold protect, protectWith, rbind. cbv beta iota.
  destruct (nonEmpty (extractToken (authorization req))) as [tok|];
    [|discriminate].
  destruct (verifyToken_total jwt_verify env tok) as [[p|] Hv];
    rewrite Hv; simpl; [|discriminate].
  intros H. injection H as <-. exists p. split; [reflexivity|].
  unfold authorize. simpl. split.
  - intros Hin. apply includes_In in Hin. rewrite Hin. reflexivity.
  - intros Hn. destruct (includes roles (Payload.role p)) eqn:E.
    + apply includes_In in E. contradiction.
    + simpl. eauto.
Qed.

(** X16. When no secret is configured, or an empty one, tokens are
    checked against the fixed key [default-secret-key]: any non-empty
    token that verifies under that key passes [protect] with whatever
    identity it carries, an admin's included. *)
Theorem protect_default_secret (req : AuthRequest) (t : string)
    (p : JWTPayload) :
  JWT_SECRET env = None \/ JWT_SECRET env = Some "" ->
  authorization req = Some ("Bearer " ++ t) ->
  t <> "" ->
  jwt_verify t "default-secret-key" = Ret p ->
  protect jwt_verify env req = Ret (CalledNext (setUser req p))
  /\ (Payload.role p = ADMIN ->
      authorize [ADMIN] (setUser req p) = CalledNext (setUser req p)).
Proof.
  intros Hs Ha Ht Hv.
  assert (Hk : secretOf env = "default-secret-key").
  { unfold secretOf. destruct Hs as [-> | ->]; reflexivity. }
  split.
  - unfold protect, protectWith, rbind. rewrite Ha.
    assert (E : extractToken (Some ("Bearer " ++ t)) = Some t).
    { apply extractToken_Some. exists ("Bearer " ++ t).
      split; [reflexivity | split; [apply prefix_append | reflexivity]]. }
    rewrite E.
    assert (Hn : nonEmpty (Some t) = Some t) by (apply nonEmpty_Some; auto).
    rewrite Hn. unfold verifyToken. rewrite Hk, Hv. reflexivity.
  - intros Hr. unfold authorize. simpl. rewrite Hr. reflexivity.
Qed.

End MiddlewareTogether.

(** X15. The allow-list of [authorize] is used as a set: an empty list
    lets no request through, a longer list lets through every request a
    shorter one does, and the list of all three roles lets through every
    request that carries an identity. *)
Theorem authorize_allow_list :
  (forall req, exists res, authorize [] req = Responded res)
  /\ (forall roles roles' req,
        incl roles roles' ->
        authorize roles req = CalledNext req ->
        authorize roles' req = CalledNext req)
  /\ (forall req p, user req = Some p ->
        authorize UserRole_values req = CalledNext req).
Proof.
  split; [|split].
  - intros req. unfold authorize. destruct (user req); simpl; eauto.
  - intros roles roles' req Hi. unfold authorize.
    destruct (user req) as [p|]; [|discriminate].
    destruct (includes roles (Payload.role p)) eqn:E; simpl; [|discriminate].
    intros _. apply includes_In in E. apply Hi in E.
    apply includes_In in E. rewrite E. reflexivity.
  - intros req p Hp. unfold authorize. rewrite Hp.
    destruct (Payload.role p); reflexivity.
Qed.

(** ** Who gets a token *)

Lemma truthyJson_string_nonempty (s : string) :
  truthyJson (Some (JStr s)) = true -> s <> "".
Proof.
  simpl. intros H E. subst s. discriminate H.
Qed.

(** X17. [login], on any parsed body, answers 200 only when [email] and
    [password] are both truthy, the password is a string, a stored
    document is the first that the filter built from the email value
    selects (for a string email: the first whose email is that string,
    lower-cased and trimmed) and [bcrypt.compare] accepted the password
    against that document's stored hash; the token is then signed over
    that document's id, role and email, and the collection is unchanged. *)
Theorem login_200_only_if
    (jwt_sign : JWTPayload -> string -> string -> Result string)
    (bcrypt_compare : string -> string -> bool) (env : Env)
    (mongoFilter : Json -> Result (string -> bool))
    (vEmail vPassword : option Json) (st st' : Store) (res : Response) :
  loginJson jwt_sign bcrypt_compare env mongoFilter vEmail vPassword st
  = (Ret res, st') ->
  status res = 200 ->
  exists v pw u h t,
    vEmail = Some v
    /\ truthyJson vEmail = true
    /\ vPassword = Some (JStr pw)
    /\ pw <> ""
    /\ lookupWhere mongoFilter v st = Ret (Some u)
    /\ In u st
    /\ (forall e, v = JStr e ->
          lookupByEmail e st = Some u /\ email u = castEmail e)
    /\ password u = Some h
    /\ bcrypt_compare pw h = true
    /\ jwt_sign (Payload.mk (_id u) (role u) (email u))
         (secretOf env) (expiresInOf env) = Ret t
    /\ res = mkResponse 200 (loggedIn u t)
    /\ st' = st.
Proof.
  rewrite loginJson_unfold.
  destruct (truthyJson vEmail) eqn:Te;
    [|intros H Hs; injection H as <- _; discriminate Hs].
  destruct (truthyJson vPassword) eqn:Tp;
    [|intros H Hs; injection H as <- _; discriminate Hs].
  cbn [negb orb].
  destruct vEmail as [v|]; [|discriminate Te].
  destruct vPassword as [vp|]; [|discriminate Tp].
  destruct (lookupWhere mongoFilter v st) as [[u|]|err] eqn:Hl;
    [| intros H Hs; injection H as <- _; discriminate Hs
     | intros H Hs; injection H as <- _; discriminate Hs].
  unfold comparePassword, getSignedJwtToken.
  destruct vp as [|b|n|pw|xs|fs];
    try (destruct (password u);
         intros H Hs; injection H as <- _; discriminate Hs).
  destruct (password u) as [h|] eqn:Hh;
    [|intros H Hs; injection H as <- _; discriminate Hs].
  destruct (bcrypt_compare pw h) eqn:Hc;
    [|intros H Hs; injection H as <- _; discriminate Hs].
  destruct (jwt_sign _ _ _) as [t|err] eqn:Ht;
    intros H Hs; injection H as <- <-; [|discriminate Hs].
  assert (Hin : In u st).
  { unfold lookupWhere in Hl.
    destruct (emailFilter mongoFilter v) as [f|]; [|discriminate Hl].
    simpl in Hl. injection Hl as Hl. apply (find_some _ _ Hl). }
  assert (Hstr : forall e, v = JStr e ->
                   lookupByEmail e st = Some u /\ email u = castEmail e).
  { intros e ->. rewrite lookupWhere_string in Hl. injection Hl as Hl.
    split; [exact Hl|].
    apply find_some in Hl. destruct Hl as [_ Hl].
    apply String.eqb_eq. exact Hl. }
  exists v, pw, u, h, t.
  split; [reflexivity|]. split; [reflexivity|]. split; [reflexivity|].
  split; [apply truthyJson_string_nonempty; exact Tp|].
  split; [first [exact Hl | reflexivity]|].
  split; [exact Hin|]. split; [exact Hstr|].
  split; [first [exact Hh | reflexivity]|].
  split; [first [exact Hc | reflexivity]|].
  split; [first [exact Ht | reflexivity]|].
  split; reflexivity.
Qed.

(** ** The further properties on the sample collection *)

Lemma emailPattern_shape_witness :
  exists l d t,
    "ann.lee@mail.lms.io" = l ++ "@" ++ d ++ "." ++ t
    /\ (exists c l', l = String c l' /\ isWord c = true)
    /\ (exists c d', d = String c d' /\ isWord c = true)
    /\ allChars isNameChar l = true
    /\ allChars isNameChar d = true
    /\ allChars isWord t = true
    /\ (String.length t = 2 \/ String.length t = 3).
Proof.
  apply emailPattern_shape. vm_compute. reflexivity.
Defined.


(** Bob registers, and then once more in capitals. *)
Lemma register_twice_witness :
  List.length (Sample.store ++ [Sample.bobUser STUDENT])%list
  = S (List.length Sample.store)
  /\ exists res2,
       register Sample.jwt_sign Sample.bcrypt_hash Sample.env
         (mkWorld "u2" "pep" 2000)
         (Sample.anonymous
            (mkBody (Some "Robert") (Some "Ray") (Some " BOB@lms.io ")
               (Some "other-secret") None None None))
         (Sample.store ++ [Sample.bobUser STUDENT])%list
       = (Ret res2, (Sample.store ++ [Sample.bobUser STUDENT])%list)
       /\ status res2 = 400.
Proof.
  apply (register_twice Sample.jwt_sign Sample.bcrypt_hash Sample.env
           Sample.world (mkWorld "u2" "pep" 2000)
           (Sample.anonymous (Sample.bob None)) _
           Sample.store (Sample.store ++ [Sample.bobUser STUDENT])%list
           (mkResponse 201
              (registered (Sample.bobUser STUDENT) (Sample.bobToken STUDENT)))
           "Bob@LMS.io" " BOB@lms.io ");
    first [reflexivity | vm_compute; reflexivity].
Defined.

(** Bob registers and logs in, writing his email in lower case. *)
Lemma register_then_login_witness :
  exists u t,
    In u (Sample.store ++ [Sample.bobUser STUDENT])%list
    /\ _id u = "u1"
    /\ Sample.jwt_sign (Payload.mk (_id u) (role u) (email u))
         (secretOf Sample.env) (expiresInOf Sample.env) = Ret t
    /\ login Sample.jwt_sign Sample.bcrypt_compare Sample.env
         (Sample.anonymous
            (mkBody None None (Some "bob@lms.io") (Some "hunter22")
               None None None))
         (Sample.store ++ [Sample.bobUser STUDENT])%list
       = (Ret (mkResponse 200 (loggedIn u t)),
          (Sample.store ++ [Sample.bobUser STUDENT])%list).
Proof.
  apply (register_then_login Sample.jwt_sign Sample.bcrypt_hash
           Sample.bcrypt_compare Sample.env Sample.world
           (Sample.anonymous (Sample.bob None)) _
           Sample.store (Sample.store ++ [Sample.bobUser STUDENT])%list
           (mkResponse 201
              (registered (Sample.bobUser STUDENT) (Sample.bobToken STUDENT)))
           "Bob@LMS.io" "bob@lms.io" "hunter22");
    first [reflexivity | intros p; eexists; reflexivity].
Defined.

Lemma sample_sign_verifies (secret expiresIn t : string) (p : JWTPayload) :
  Sample.jwt_sign p secret expiresIn = Ret t ->
  t <> "" /\ Sample.jwt_verify t secret = Ret p.
Proof.
  intros H. destruct (sample_codec secret expiresIn p) as (t' & H1 & H2).
  assert (t' = t) by congruence. subst t'. split; [|exact H2].
  unfold Sample.jwt_sign in H. injection H as <-.
  destruct secret; discriminate.
Qed.

(** Bob registers, shows his token and asks who he is. *)
Lemma register_then_session_witness :
  exists u t,
    registered (Sample.bobUser STUDENT) (Sample.bobToken STUDENT)
    = registered u t
    /\ In u (Sample.store ++ [Sample.bobUser STUDENT])%list
    /\ forall req2,
         authorization req2 = Some ("Bearer " ++ t) ->
         protect Sample.jwt_verify Sample.env req2
         = Ret (CalledNext
                  (setUser req2 (Payload.mk (_id u) (role u) (email u))))
         /\ getMe (setUser req2 (Payload.mk (_id u) (role u) (email u)))
              (Sample.store ++ [Sample.bobUser STUDENT])%list
            = (Ret (mkResponse 200 (fetched u)),
               (Sample.store ++ [Sample.bobUser STUDENT])%list).
Proof.
  apply (register_then_session Sample.jwt_sign Sample.jwt_verify
           Sample.bcrypt_hash Sample.env Sample.world
           (Sample.anonymous (Sample.bob None))
           Sample.store (Sample.store ++ [Sample.bobUser STUDENT])%list
           (mkResponse 201
              (registered (Sample.bobUser STUDENT) (Sample.bobToken STUDENT)))).
  - intros p t. apply sample_sign_verifies.
  - reflexivity.
  - reflexivity.
Defined.

(** Ann logs in: her hash was loaded, the response does not have it. *)
Lemma handle_no_password_witness :
  hasKey "password"
    (json (mkResponse 200 (loggedIn Sample.ann Sample.annToken)))
  = false.
Proof.
  apply (handle_no_password Sample.jwt_sign Sample.bcrypt_hash
           Sample.bcrypt_compare Sample.env
           (PostLogin
              (Sample.anonymous
                 (mkBody None None (Some "ann@lms.io") (Some "secret1")
                    None None None)))
           Sample.store Sample.store).
  reflexivity.
Defined.

(** Ann's profile update, seen from the fixed fields. *)
Lemma handle_keeps_fixed_fields_witness :
  (exists added,
      List.length added <= 1
      /\ map fixedFields
           (snd (handle Sample.jwt_sign Sample.bcrypt_hash
                   Sample.bcrypt_compare Sample.env
                   (PutUpdateProfile Sample.world
                      (Sample.asAnn Sample.newProfile))
                   Sample.store))
         = map fixedFields (Sample.store ++ added))
  /\ True
  /\ (forall res,
        fst (handle Sample.jwt_sign Sample.bcrypt_hash
               Sample.bcrypt_compare Sample.env
               (PutUpdateProfile Sample.world
                  (Sample.asAnn Sample.newProfile))
               Sample.store) = Ret res ->
        status res = 400 \/ status res = 401 \/ status res = 404 ->
        snd (handle Sample.jwt_sign Sample.bcrypt_hash
               Sample.bcrypt_compare Sample.env
               (PutUpdateProfile Sample.world
                  (Sample.asAnn Sample.newProfile))
               Sample.store) = Sample.store).
Proof.
  apply (handle_keeps_fixed_fields Sample.jwt_sign Sample.bcrypt_hash
           Sample.bcrypt_compare Sample.env
           (PutUpdateProfile Sample.world (Sample.asAnn Sample.newProfile))
           Sample.store).
  apply surjective_pairing.
Defined.

Lemma sample_store_WellFormed : WellFormed Sample.store.
Proof.
  unfold WellFormed, Sample.store. simpl. split; [|split].
  - constructor; [intros [] | constructor].
  - constructor; [intros [] | constructor].
  - constructor; [|constructor]. unfold validStored. simpl.
    repeat split; try discriminate; try lia.
Defined.

(** Bob's registration keeps the sample collection well formed. *)
Lemma handle_keeps_WellFormed_witness :
  WellFormed
    (snd (handle Sample.jwt_sign Sample.bcrypt_hash Sample.bcrypt_compare
            Sample.env
            (PostRegister Sample.world (Sample.anonymous (Sample.bob None)))
            Sample.store)).
Proof.
  apply (handle_keeps_WellFormed Sample.jwt_sign Sample.bcrypt_hash
           Sample.bcrypt_compare Sample.env
           (PostRegister Sample.world (Sample.anonymous (Sample.bob None)))
           Sample.store _
           (fst (handle Sample.jwt_sign Sample.bcrypt_hash
                   Sample.bcrypt_compare Sample.env
                   (PostRegister Sample.world
                      (Sample.anonymous (Sample.bob None)))
                   Sample.store))).
  - exact sample_store_WellFormed.
  - apply surjective_pairing.
Defined.

(** Ann sends her profile update twice. *)
Lemma updateProfile_again_witness :
  exists res2,
    updateProfile Sample.bcrypt_hash (mkWorld "u2" "pep" 2000)
      (Sample.asAnn Sample.newProfile)
      (snd (updateProfile Sample.bcrypt_hash Sample.world
              (Sample.asAnn Sample.newProfile) Sample.store))
    = (Ret res2,
       snd (updateProfile Sample.bcrypt_hash Sample.world
              (Sample.asAnn Sample.newProfile) Sample.store))
    /\ status res2 = 200.
Proof.
  eapply (updateProfile_again Sample.bcrypt_hash Sample.world
            (mkWorld "u2" "pep" 2000) (Sample.asAnn Sample.newProfile)
            Sample.store).
  - vm_compute. reflexivity.
  - reflexivity.
Defined.

(** Ann updates her profile and asks who she is. *)
Lemma updateProfile_then_getMe_witness :
  exists d,
    profileUpdated
      (mkUser "u0" "Ann" "Smith" "ann@lms.io" None STUDENT "a.png" None
         10 1000 [] [] false None None)
    = profileUpdated d
    /\ getMe (Sample.asAnn Sample.newProfile)
         (snd (updateProfile Sample.bcrypt_hash Sample.world
                 (Sample.asAnn Sample.newProfile) Sample.store))
       = (Ret (mkResponse 200 (fetched d)),
          snd (updateProfile Sample.bcrypt_hash Sample.world
                 (Sample.asAnn Sample.newProfile) Sample.store)).
Proof.
  apply (updateProfile_then_getMe Sample.bcrypt_hash Sample.world
           (Sample.asAnn Sample.newProfile) Sample.store _
           (mkResponse 200
              (profileUpdated
                 (mkUser "u0" "Ann" "Smith" "ann@lms.io" None STUDENT "a.png"
                    None 10 1000 [] [] false None None)))).
  - vm_compute. reflexivity.
  - reflexivity.
Defined.

Lemma extractToken_bearer_witness :
  Some "Bearer  x.y.z" = Some ("Bearer " ++ " x.y.z").
Proof.
  apply (proj2 extractToken_bearer (Some "Bearer  x.y.z") " x.y.z").
  reflexivity.
Defined.

(** Ann's token, and no token, through both middlewares. *)
Lemma optionalAuth_agrees_with_protect_witness :
  optionalAuth Sample.jwt_verify Sample.env
    (mkRequest (Some ("Bearer " ++ Sample.annToken)) emptyBody None)
  = Ret (CalledNext (Sample.asAnn emptyBody))
  /\ optionalAuth Sample.jwt_verify Sample.env (Sample.anonymous emptyBody)
     = Ret (CalledNext (Sample.anonymous emptyBody)).
Proof.
  split.
  - apply (proj1 (optionalAuth_agrees_with_protect Sample.jwt_verify
                    Sample.env
                    (mkRequest (Some ("Bearer " ++ Sample.annToken))
                       emptyBody None))).
    reflexivity.
  - apply (proj2 (optionalAuth_agrees_with_protect Sample.jwt_verify
                    Sample.env (Sample.anonymous emptyBody))
             (failure 401
                "Not authorized. Please login to access this resource.")).
    reflexivity.
Defined.

(** Ann, a student, behind [protect] at a route for instructors. *)
Lemma protect_then_authorize_witness :
  exists p,
    user (Sample.asAnn emptyBody) = Some p
    /\ (In (Payload.role p) [INSTRUCTOR; ADMIN] ->
        authorize [INSTRUCTOR; ADMIN] (Sample.asAnn emptyBody)
        = CalledNext (Sample.asAnn emptyBody))
    /\ (~ In (Payload.role p) [INSTRUCTOR; ADMIN] ->
        exists res,
          authorize [INSTRUCTOR; ADMIN] (Sample.asAnn emptyBody)
          = Responded res
          /\ status res = 403).
Proof.
  apply (protect_then_authorize Sample.jwt_verify Sample.env
           [INSTRUCTOR; ADMIN]
           (mkRequest (Some ("Bearer " ++ Sample.annToken)) emptyBody None)).
  reflexivity.
Defined.

Lemma authorize_allow_list_witness :
  authorize [INSTRUCTOR; ADMIN]
    (mkRequest None emptyBody (Some (Payload.mk "u9" ADMIN "root@lms.io")))
  = CalledNext
      (mkRequest None emptyBody (Some (Payload.mk "u9" ADMIN "root@lms.io")))
  /\ authorize UserRole_values (Sample.asAnn emptyBody)
     = CalledNext (Sample.asAnn emptyBody).
Proof.
  split.
  - apply (proj1 (proj2 authorize_allow_list) [ADMIN] [INSTRUCTOR; ADMIN]).
    + intros r [<-|[]]. right. left. reflexivity.
    + reflexivity.
  - apply (proj2 (proj2 authorize_allow_list) _ Sample.annIdentity).
    reflexivity.
Defined.

(** A token made with the public default key passes as an admin's. *)
Lemma protect_default_secret_witness :
  protect Sample.jwt_verify Sample.env
    (mkRequest (Some ("Bearer " ++ "default-secret-key.a110u9eve@lms.io"))
       emptyBody None)
  = Ret (CalledNext
           (setUser
              (mkRequest
                 (Some ("Bearer " ++ "default-secret-key.a110u9eve@lms.io"))
                 emptyBody None)
              (Payload.mk "u9" ADMIN "eve@lms.io")))
  /\ (Payload.role (Payload.mk "u9" ADMIN "eve@lms.io") = ADMIN ->
      authorize [ADMIN]
        (setUser
           (mkRequest
              (Some ("Bearer " ++ "default-secret-key.a110u9eve@lms.io"))
              emptyBody None)
           (Payload.mk "u9" ADMIN "eve@lms.io"))
      = CalledNext
          (setUser
             (mkRequest
                (Some ("Bearer " ++ "default-secret-key.a110u9eve@lms.io"))
                emptyBody None)
             (Payload.mk "u9" ADMIN "eve@lms.io"))).
Proof.
  apply (protect_default_secret Sample.jwt_verify Sample.env _
           "default-secret-key.a110u9eve@lms.io").
  - left. reflexivity.
  - reflexivity.
  - discriminate.
  - reflexivity.
Defined.

(** Ann's login, read backwards from its 200 response. *)
Lemma login_200_only_if_witness :
  exists v pw u h t,
    Some (JStr "ann@lms.io") = Some v
    /\ truthyJson (Some (JStr "ann@lms.io")) = true
    /\ Some (JStr "secret1") = Some (JStr pw)
    /\ pw <> ""
    /\ lookupWhere Sample.mongoFilter v Sample.store = Ret (Some u)
    /\ In u Sample.store
    /\ (forall e, v = JStr e ->
          lookupByEmail e Sample.store = Some u /\ email u = castEmail e)
    /\ password u = Some h
    /\ Sample.bcrypt_compare pw h = true
    /\ Sample.jwt_sign (Payload.mk (_id u) (role u) (email u))
         (secretOf Sample.env) (expiresInOf Sample.env) = Ret t
    /\ mkResponse 200 (loggedIn Sample.ann Sample.annToken)
       = mkResponse 200 (loggedIn u t)
    /\ Sample.store = Sample.store.
Proof.
  apply (login_200_only_if Sample.jwt_sign Sample.bcrypt_compare Sample.env
           Sample.mongoFilter
           (Some (JStr "ann@lms.io")) (Some (JStr "secret1"))
           Sample.store Sample.store
           (mkResponse 200 (loggedIn Sample.ann Sample.annToken)));
    reflexivity.
Defined.
